(** * server.js: record stores of the spray-program backend

    A shallow embedding of the request handlers of [server.js] and of the
    helpers [parseWeekRange] and [filterFarmRows].  The file holds two
    revisions of the server one after the other; the handlers here are those
    of the second one (from line 325 on), which has the merging
    [/agro/bulk_set], [/agro/save], the import by identifier and the
    farm-report search.

    Each handler reads a whole JSON array with [readJSON], works on it in
    memory and hands the array to [writeJSON].  A handler is therefore a
    function from the parsed array (and the request) to the response and the
    array that is written back. *)

From Stdlib Require Import ZArith Lia Ascii String List Sorted.
From stdpp Require Import base option list gmap strings pretty.

Local Open Scope Z_scope.
Local Open Scope string_scope.
Local Open Scope list_scope.

(** ** JavaScript values *)

Module JS.

(** Numbers.  Identifiers, week numbers and millisecond timestamps are
    integers; a JavaScript number is a binary64 float, on which integer
    arithmetic is exact below [2^53].  [NaN] is kept apart because the code
    tests for it ([isNaN]) and because it poisons comparisons. *)
Inductive number :=
  | NaN
  | Fin (z : Z).

(** The values a parsed JSON body, query string or stored row can hold in a
    field.  A field that is absent reads as [VUndef].  Fields are scalars:
    rows whose fields hold arrays or nested objects are not covered.
    ([JSON.stringify] writes [NaN] as [null]; a [NaN] here stands for the
    value in memory.) *)
Inductive value :=
  | VUndef
  | VNull
  | VBool (b : bool)
  | VNum (n : number)
  | VStr (s : string).

#[global] Instance number_eq_dec : EqDecision number.
Proof. solve_decision. Defined.

#[global] Instance value_eq_dec : EqDecision value.
Proof. solve_decision. Defined.

(** ToBoolean *)
Definition truthy (v : value) : bool :=
  match v with
  | VUndef | VNull => false
  | VBool b => b
  | VNum NaN => false
  | VNum (Fin z) => negb (Z.eqb z 0)
  | VStr s => negb (String.eqb s "")
  end.

(** [a || b] and [a ?? b] *)
Definition js_or (a b : value) : value := if truthy a then a else b.

Definition nullish (v : value) : bool :=
  match v with
  | VUndef | VNull => true
  | _ => false
  end.

Definition coalesce (a b : value) : value := if nullish a then b else a.

(** [a === b] *)
Definition strict_eq (a b : value) : bool :=
  match a with
  | VNum NaN => false
  | _ => bool_decide (a = b)
  end.

(** ToString *)
Definition NumberToString (n : number) : string :=
  match n with
  | NaN => "NaN"
  | Fin z => pretty z
  end.

Definition ToString (v : value) : string :=
  match v with
  | VUndef => "undefined"
  | VNull => "null"
  | VBool true => "true"
  | VBool false => "false"
  | VNum n => NumberToString n
  | VStr s => s
  end.

(** The parts of the host that are not reproduced here: the numeric reading
    of a string ([Number(s)]), Unicode lower-casing and date parsing
    ([new Date(s).getTime()]).  The development is parametric in them. *)
Class Host := {
  StringToNumber : string -> number;
  toLowerCase : string -> string;
  DateParse : string -> number
}.

(** ToNumber, as [Number(v)] and as the coercion of arithmetic operands. *)
Definition ToNumber `{Host} (v : value) : number :=
  match v with
  | VUndef => NaN
  | VNull => Fin 0
  | VBool true => Fin 1
  | VBool false => Fin 0
  | VNum n => n
  | VStr s => StringToNumber s
  end.

Definition isNaN (n : number) : bool :=
  match n with
  | NaN => true
  | Fin _ => false
  end.

(** Arithmetic and comparison on numbers; [NaN] propagates through the
    former and falsifies the latter. *)
Definition num_add (a b : number) : number :=
  match a, b with
  | Fin x, Fin y => Fin (x + y)
  | _, _ => NaN
  end.

Definition num_sub (a b : number) : number :=
  match a, b with
  | Fin x, Fin y => Fin (x - y)
  | _, _ => NaN
  end.

Definition num_max (a b : number) : number :=
  match a, b with
  | Fin x, Fin y => Fin (Z.max x y)
  | _, _ => NaN
  end.

Definition num_lt (a b : number) : bool :=
  match a, b with
  | Fin x, Fin y => Z.ltb x y
  | _, _ => false
  end.

Definition num_gt (a b : number) : bool := num_lt b a.

(** [a !== b] on numbers *)
Definition num_neq (a b : number) : bool :=
  match a, b with
  | Fin x, Fin y => negb (Z.eqb x y)
  | _, _ => true
  end.

(** [n || 0] on a number *)
Definition or0 (n : number) : number :=
  match n with
  | NaN => Fin 0
  | Fin z => Fin z
  end.

(** *** Strings *)

(** White space skipped by [trim] and [parseInt]; the ASCII part of the
    ECMAScript set. *)
Definition is_ws (c : ascii) : bool :=
  let n := nat_of_ascii c in
  Nat.eqb n 32 || (Nat.leb 9 n && Nat.leb n 13).

Fixpoint skip_ws (s : string) : string :=
  match s with
  | String c s' => if is_ws c then skip_ws s' else s
  | EmptyString => s
  end.

Definition trim (s : string) : string :=
  String.rev (skip_ws (String.rev (skip_ws s))).

(** [s.split(sep)] for a one-character separator: never the empty list. *)
Fixpoint str_split (sep : ascii) (s : string) : list string :=
  match s with
  | EmptyString => [EmptyString]
  | String c s' =>
      if Ascii.eqb c sep then EmptyString :: str_split sep s'
      else match str_split sep s' with
           | h :: t => String c h :: t
           | [] => [String c EmptyString]
           end
  end.

Definition digit_of (c : ascii) : option Z :=
  let n := nat_of_ascii c in
  if Nat.leb 48 n && Nat.leb n 57
  then Some (Z.of_nat n - 48) else None.

(** The longest prefix of decimal digits, read as a number; [None] when the
    string does not start with a digit. *)
Fixpoint digits (s : string) (acc : option Z) : option Z :=
  match s with
  | String c s' =>
      match digit_of c with
      | Some d => digits s' (Some (10 * default 0 acc + d))
      | None => acc
      end
  | EmptyString => acc
  end.

Definition of_digits (sign : Z) (s : string) : number :=
  match digits s None with
  | Some z => Fin (sign * z)
  | None => NaN
  end.

(** [parseInt(s, 10)]: leading white space, an optional sign, then digits;
    whatever follows the digits is ignored. *)
Definition parseInt (s : string) : number :=
  match skip_ws s with
  | String "-" s' => of_digits (-1) s'
  | String "+" s' => of_digits 1 s'
  | s' => of_digits 1 s'
  end.

(** *** Objects *)

(** A row is a JavaScript object with scalar fields.  A property holding
    [undefined] and a missing property read the same and serialise the same
    ([JSON.stringify] drops the former), so one representation serves both:
    the key is absent. *)
Abbreviation object := (gmap string value).

Definition get (r : object) (k : string) : value := default VUndef (r !! k).

Definition set_field (k : string) (v : value) (r : object) : object :=
  match v with
  | VUndef => delete k r
  | _ => <[k := v]> r
  end.

(** [{ ...a, ...b }]: the fields of [b] win. *)
Definition spread (a b : object) : object := b ∪ a.

(** [arr.findIndex(p)] and [arr.find(p)], [None] for [-1] and [undefined]. *)
Fixpoint findIndex {A} (p : A -> bool) (l : list A) : option nat :=
  match l with
  | [] => None
  | x :: l' => if p x then Some O else S <$> findIndex p l'
  end.

Fixpoint arr_find {A} (p : A -> bool) (l : list A) : option A :=
  match l with
  | [] => None
  | x :: l' => if p x then Some x else arr_find p l'
  end.

(** [arr.sort(cmp)].  The language requires a stable sort; the elements are
    ordered by the sign of [cmp a b], a result that is [NaN] or zero leaving
    the two in their order.  For a comparator that is a consistent ordering
    every stable sort returns this list. *)
Definition is_positive (n : number) : bool := num_lt (Fin 0) n.

Fixpoint insert_sorted {A} (cmp : A -> A -> number) (x : A) (l : list A) : list A :=
  match l with
  | [] => [x]
  | y :: l' => if is_positive (cmp x y) then y :: insert_sorted cmp x l' else x :: l
  end.

Fixpoint arr_sort {A} (cmp : A -> A -> number) (l : list A) : list A :=
  match l with
  | [] => []
  | x :: l' => insert_sorted cmp x (arr_sort cmp l')
  end.

(** [Math.max(x, ...xs)] with at least one argument: every argument is
    coerced with ToNumber.  (Without arguments the result is [-Infinity];
    both callers test [rows.length] first.) *)
Definition Math_max `{Host} (x : value) (xs : list value) : number :=
  fold_left (fun m v => num_max m (ToNumber v)) xs (ToNumber x).

(** [arr.reduce((m, r) => Math.max(m, f(r)), init)] *)
Definition reduce_max `{Host} {A} (f : A -> value) (l : list A) (init : number) : number :=
  fold_left (fun m r => num_max m (ToNumber (f r))) l init.

(** [arr.includes(v)] *)
Definition includes (l : list value) (v : value) : bool := bool_decide (v ∈ l).

(** An object literal [{ k1: v1, k2: v2, ... }] *)
Definition obj (l : list (string * value)) : object :=
  fold_left (fun r kv => set_field kv.1 kv.2 r) l ∅.

(** [new Date(v).getTime()] for a truthy [v]: a string is parsed, any other
    value is read as a number of milliseconds, which must lie within
    8.64e15 of the epoch. *)
Definition TimeClip (n : number) : number :=
  match n with
  | Fin z => if Z.leb (Z.abs z) 8640000000000000 then Fin z else NaN
  | NaN => NaN
  end.

Definition Date_getTime `{Host} (v : value) : number :=
  match v with
  | VStr s => DateParse s
  | _ => TimeClip (ToNumber v)
  end.

End JS.

Import JS.

(** ** HTTP responses

    [res.status(c).json(body)]: the status code ([200] unless set), the
    scalar fields of the body, and the row the body carries, if any. *)
Record response := Response {
  status : nat;
  json : object;
  attached : option object
}.

Definition ok (fields : list (string * value)) : response :=
  Response 200 (obj (("success", VBool true) :: fields)) None.

Definition failure (code : nat) (msg : string) : response :=
  Response code (obj [("success", VBool false); ("message", VStr msg)]) None.

Definition of_nat (n : nat) : value := VNum (Fin (Z.of_nat n)).

(** [rows.length ? Math.max(...rows.map(r => r.id || 0)) + 1 : 1] *)
Definition next_id `{Host} (rows : list object) : number :=
  match map (fun r => js_or (get r "id") (VNum (Fin 0))) rows with
  | [] => Fin 1
  | x :: xs => num_add (Math_max x xs) (Fin 1)
  end.

(** [rows.reduce((m, r) => Math.max(m, r.id || 0), 0)] *)
Definition max_id `{Host} (rows : list object) : number :=
  reduce_max (fun r => js_or (get r "id") (VNum (Fin 0))) rows (Fin 0).

(** ** Registration: [POST /register] *)

Module Auth.
Section Auth.
Context `{!Host}.

Definition ROLES : list value :=
  [VStr "Viewer"; VStr "Supervisor"; VStr "Agronomist"; VStr "GeneralManager"].

Definition mismatch : string := "Payroll number mismatch".

(** [payroll.find((p) => String(p.payrollNumber) === String(payrollNumber))] *)
Definition payroll_record (payroll : list object) (payrollNumber : value)
  : option object :=
  arr_find (fun p => String.eqb (ToString (get p "payrollNumber"))
                                (ToString payrollNumber)) payroll.

(** [users.find((u) => u.username === username)] *)
Definition user_named (users : list object) (username : value) : option object :=
  arr_find (fun u => strict_eq (get u "username") username) users.

(** [!payrollRecord || payrollRecord.role !== role] *)
Definition role_rejected (payrollRecord : option object) (role : value) : bool :=
  match payrollRecord with
  | None => true
  | Some p => negb (strict_eq (get p "role") role)
  end.

(** [body] is [req.body || {}], [now] the value of
    [new Date().toISOString()]; the result is the response and the content
    of the users file afterwards. *)
Definition register (body : object) (now : string) (users payroll : list object)
  : response * list object :=
  let username := get body "username" in
  let password := get body "password" in
  let role := get body "role" in
  let payrollNumber := get body "payrollNumber" in
  if negb (truthy username) || negb (truthy password)
     || negb (truthy role) || negb (truthy payrollNumber)
  then (failure 200 "All fields are required", users)
  else if negb (includes ROLES role)
  then (failure 200 "Invalid role", users)
  else if bool_decide (is_Some (user_named users username))
  then (failure 200 "Username already exists", users)
  else
    let payrollRecord := payroll_record payroll payrollNumber in
    if role_rejected payrollRecord role
    then (failure 200 mismatch, users)
    else
      let user := obj [("id", VNum (next_id users));
                       ("username", username);
                       ("password", password);
                       ("role", role);
                       ("payrollNumber", payrollNumber);
                       ("createdAt", VStr now)] in
      (ok [], users ++ [user]).

End Auth.
End Auth.

(** ** The agronomy store *)

Module Agro.
Section Agro.
Context `{!Host}.

(** *** [POST /agro/add] *)

Definition new_row (rows : list object) (body : object) : object :=
  set_field "supervisorRemarks" (VStr "")
    (spread (obj [("id", VNum (next_id rows))]) body).

Definition add (body : object) (rows : list object) : response * list object :=
  let newRow := new_row rows body in
  (Response 200 (obj [("success", VBool true)]) (Some newRow), rows ++ [newRow]).

(** *** [POST /agro/save] *)

Record save_state := SaveState {
  existingRows : list object;
  added : nat;
  duplicates : nat
}.

(** [if (!row.id) row.id = ...] *)
Definition ensure_id (existing : list object) (row : object) : object :=
  if negb (truthy (get row "id"))
  then set_field "id" (VNum (next_id existing)) row
  else row.

(** The predicate of [existingRows.some(...)], [row] being the incoming row
    after [ensure_id]. *)
Definition same_record (row r : object) : bool :=
  strict_eq (get r "id") (get row "id")
  || (strict_eq (get r "farm") (get row "farm")
      && strict_eq (get r "gh") (get row "gh")
      && strict_eq (get r "area") (get row "area")
      && strict_eq (get r "crop") (get row "crop")
      && strict_eq (get r "time") (get row "time")).

(** The body of [newRows.forEach]. *)
Definition save_row (st : save_state) (row0 : object) : save_state :=
  let row := ensure_id (existingRows st) row0 in
  let exists_ := existsb (same_record row) (existingRows st) in
  if exists_
  then SaveState (existingRows st) (added st) (S (duplicates st))
  else SaveState (existingRows st ++ [row]) (S (added st)) (duplicates st).

Definition save_rows (rows : list object) (newRows : list object) : save_state :=
  fold_left save_row newRows (SaveState rows 0 0).

Definition save_message (st : save_state) : string :=
  if truthy (of_nat (duplicates st))
  then pretty (duplicates st) +:+ " rows already saved"
  else pretty (added st) +:+ " new rows saved".

(** [body] is [None] when [req.body] is not an array; the elements of the
    array are objects. *)
Definition save (body : option (list object)) (rows : list object) : response * list object :=
  match body with
  | None => (failure 400 "Invalid data", rows)
  | Some newRows =>
      let st := save_rows rows newRows in
      (ok [("added", of_nat (added st));
           ("duplicates", of_nat (duplicates st));
           ("message", VStr (save_message st))],
       existingRows st)
  end.

(** *** [POST /agro/bulk_set] *)

Record bulk_state := BulkState {
  maxId : number;
  merged : list object
}.

(** [if (!row.id) row.id = ++maxId], returning the counter and the row. *)
Definition assign_id (m : number) (row : object) : number * object :=
  if negb (truthy (get row "id"))
  then let m' := num_add m (Fin 1) in (m', set_field "id" (VNum m') row)
  else (m, row).

(** The object written to [merged[idx]]. *)
Definition merge_row (old row : object) : object :=
  set_field "supervisorRemarks"
    (coalesce (get row "supervisorRemarks")
       (coalesce (get old "supervisorRemarks") (VStr "")))
    (spread old row).

(** [if (!row.supervisorRemarks) row.supervisorRemarks = ""] *)
Definition default_remarks (row : object) : object :=
  if negb (truthy (get row "supervisorRemarks"))
  then set_field "supervisorRemarks" (VStr "") row
  else row.

(** The body of [newData.forEach]. *)
Definition bulk_row (st : bulk_state) (row0 : object) : bulk_state :=
  let '(m, row) := assign_id (maxId st) row0 in
  match findIndex (fun r => strict_eq (get r "id") (get row "id")) (merged st) with
  | Some idx =>
      match merged st !! idx with
      | Some old => BulkState m (<[idx := merge_row old row]> (merged st))
      | None => BulkState m (merged st)
      end
  | None => BulkState m (merged st ++ [default_remarks row])
  end.

Definition bulk_rows (existing : list object) (newData : list object) : bulk_state :=
  fold_left bulk_row newData (BulkState (max_id existing) existing).

(** [body] as for [save]. *)
Definition bulk_set (body : option (list object)) (existing : list object)
  : response * list object :=
  match body with
  | None => (failure 400 "Invalid data", existing)
  | Some newData =>
      (ok [("count", of_nat (length newData))], merged (bulk_rows existing newData))
  end.

(** *** [POST /agro/supervisor-remarks] *)

Definition supervisor_remarks (body : object) (rows : list object) : response * list object :=
  let id := get body "id" in
  let supervisorRemarks := get body "supervisorRemarks" in
  if negb (truthy id) then (failure 400 "Missing id", rows)
  else
    match findIndex (fun r => strict_eq (get r "id") (VNum (ToNumber id))) rows with
    | None => (failure 404 "Not found", rows)
    | Some idx =>
        match rows !! idx with
        | Some r =>
            (ok [], <[idx := set_field "supervisorRemarks"
                               (js_or supervisorRemarks (VStr "")) r]> rows)
        | None => (ok [], rows)
        end
    end.

(** *** [POST /agro/import], from the parsed sheet on *)










End Agro.
End Agro.

(** ** The farm-report store *)

Module FarmReport.
Section FarmReport.
Context `{!Host}.

(** *** [POST /farmreport] *)

Definition append (body : object) (now : string) (rows : list object)
  : response * list object :=
  let year := get body "year" in
  let weekRange := get body "weekRange" in
  let farm := get body "farm" in
  let greenhouse := get body "greenhouse" in
  let bed := get body "bed" in
  let crop := get body "crop" in
  let variety := get body "variety" in
  let pest := get body "pest" in
  let disease := get body "disease" in
  let pestRate := get body "pestRate" in
  let diseaseRate := get body "diseaseRate" in
  if negb (truthy weekRange) || negb (truthy farm) || negb (truthy greenhouse)
  then (failure 400 "weekRange, farm, greenhouse required", rows)
  else
    let nextId := num_add (max_id rows) (Fin 1) in
    let str v := VStr (ToString (js_or v (VStr ""))) in
    (ok [("id", VNum nextId)],
     rows ++ [obj [("id", VNum nextId);
                   ("year", str year);
                   ("weekRange", VStr (trim (ToString weekRange)));
                   ("farm", str farm);
                   ("greenhouse", str greenhouse);
                   ("bed", str bed);
                   ("crop", str crop);
                   ("variety", str variety);
                   ("pest", str pest);
                   ("disease", str disease);
                   ("pestRate", VNum (or0 (ToNumber pestRate)));
                   ("diseaseRate", VNum (or0 (ToNumber diseaseRate)));
                   ("createdAt", VStr now)]]).

(** *** [parseWeekRange]: the pair [(start, end)] *)

Definition parseWeekRange (weekRangeStr : value) : number * number :=
  let s := trim (ToString (js_or weekRangeStr (VStr ""))) in
  let single :=
    let single := parseInt s in
    if negb (isNaN single) then (single, single) else (NaN, NaN) in
  match str_split "-" s with
  | [p0; p1] =>
      let start := parseInt p0 in
      let end_ := parseInt p1 in
      if negb (isNaN start) && negb (isNaN end_) then (start, end_) else single
  | _ => single
  end.

(** *** [filterFarmRows] *)

(** [x !== undefined && x !== "" ? f(x) : null] *)
Definition optional (f : value -> number) (x : value) : option number :=
  if negb (strict_eq x VUndef) && negb (strict_eq x (VStr ""))
  then Some (f x) else None.

(** [q && String(r.k || "").toLowerCase() !== String(q).toLowerCase()] *)
Definition differs (q : value) (field : value) : bool :=
  truthy q
  && negb (String.eqb (toLowerCase (ToString (js_or field (VStr ""))))
                      (toLowerCase (ToString q))).

(** [bound !== null && cmp(x, bound)] *)
Definition beyond (cmp : number -> number -> bool) (x : number) (bound : option number)
  : bool :=
  match bound with
  | Some b => cmp x b
  | None => false
  end.

(** The week test of the filter callback: [true] when the row is rejected. *)
Definition week_rejects (wf wt : option number) (r : object) : bool :=
  if bool_decide (wf <> None) || bool_decide (wt <> None)
  then
    let '(start, end_) := parseWeekRange (get r "weekRange") in
    if isNaN start then true (* s === null *)
    else
      let s := start in
      let e := if isNaN end_ then s else end_ in
      beyond num_lt s wf || beyond num_gt e wt
  else false.

Record bounds := Bounds {
  wf : option number;
  wt : option number;
  pMin : option number;
  pMax : option number;
  dMin : option number;
  dMax : option number
}.

Definition bounds_of (query : object) : bounds :=
  Bounds (optional (fun v => parseInt (ToString v)) (get query "weekFrom"))
         (optional (fun v => parseInt (ToString v)) (get query "weekTo"))
         (optional ToNumber (get query "pestRateMin"))
         (optional ToNumber (get query "pestRateMax"))
         (optional ToNumber (get query "diseaseRateMin"))
         (optional ToNumber (get query "diseaseRateMax")).

(** The callback of [rows.filter]. *)
Definition keeps (query : object) (b : bounds) (r : object) : bool :=
  if differs (get query "year") (get r "year") then false
  else if week_rejects (wf b) (wt b) r then false
  else if differs (get query "farm") (get r "farm") then false
  else if differs (get query "greenhouse") (get r "greenhouse") then false
  else if differs (get query "bed") (get r "bed") then false
  else if differs (get query "crop") (get r "crop") then false
  else if differs (get query "variety") (get r "variety") then false
  else if differs (get query "pest") (get r "pest") then false
  else if differs (get query "disease") (get r "disease") then false
  else
    let pr := or0 (ToNumber (get r "pestRate")) in
    let dr := or0 (ToNumber (get r "diseaseRate")) in
    if beyond num_lt pr (pMin b) then false
    else if beyond num_gt pr (pMax b) then false
    else if beyond num_lt dr (dMin b) then false
    else if beyond num_gt dr (dMax b) then false
    else true.

(** [a.createdAt ? new Date(a.createdAt).getTime() : 0] *)
Definition created_ms (a : object) : number :=
  if truthy (get a "createdAt") then Date_getTime (get a "createdAt") else Fin 0.

(** [a.id || 0] as the operand of a subtraction *)
Definition id_num (a : object) : number :=
  ToNumber (js_or (get a "id") (VNum (Fin 0))).

(** The comparator of [filtered.sort]. *)
Definition newest_first (a b : object) : number :=
  let aT := created_ms a in
  let bT := created_ms b in
  if num_neq aT bT then num_sub bT aT
  else num_sub (id_num b) (id_num a).

(** [rows] is the content of the farm-report file. *)
Definition filterFarmRows (query : object) (rows : list object) : list object :=
  let b := bounds_of query in
  let filtered := List.filter (keeps query b) rows in
  arr_sort newest_first filtered.

End FarmReport.
End FarmReport.

(** ** A host for running the handlers

    A small host on which the handlers can be evaluated: it reads decimal
    integers for [Number(s)], lowers ASCII letters for [toLowerCase], and
    reads dates in the format that [toISOString] writes,
    [YYYY-MM-DDTHH:mm:ss.sssZ].  It answers [NaN] elsewhere, where an engine
    reads more (fractions, exponents, other date formats); the inputs used
    below stay within what it reads as the engine does. *)

Module SampleHost.

Definition all_digits (s : string) : bool :=
  negb (String.eqb s "")
  && forallb (fun c => bool_decide (is_Some (digit_of c))) (list_ascii_of_string s).

Definition decimal (s : string) : number :=
  let s := trim s in
  match s with
  | EmptyString => Fin 0
  | String "-" s' => if all_digits s' then of_digits (-1) s' else NaN
  | String "+" s' => if all_digits s' then of_digits 1 s' else NaN
  | _ => if all_digits s then of_digits 1 s else NaN
  end.

Definition lower_ascii (c : ascii) : ascii :=
  let n := nat_of_ascii c in
  if Nat.leb 65 n && Nat.leb n 90 then ascii_of_nat (n + 32) else c.

Definition lower (s : string) : string :=
  string_of_list_ascii (map lower_ascii (list_ascii_of_string s)).

(** Days from 1970-01-01 to the given civil date. *)
Definition days_from_civil (y m d : Z) : Z :=
  let y := if Z.leb m 2 then y - 1 else y in
  let era := y / 400 in
  let yoe := y - era * 400 in
  let doy := (153 * (if Z.ltb 2 m then m - 3 else m + 9) + 2) / 5 + d - 1 in
  let doe := yoe * 365 + yoe / 4 - yoe / 100 + doy in
  era * 146097 + doe - 719468.

Definition field (s : string) (from len : nat) : option Z :=
  let f := substring from len s in
  if all_digits f && Nat.eqb (String.length f) len then digits f None else None.

Definition iso (s : string) : number :=
  match field s 0 4, field s 5 2, field s 8 2, field s 11 2, field s 14 2,
        field s 17 2, field s 20 3 with
  | Some y, Some mo, Some d, Some h, Some mi, Some sec, Some ms =>
      if String.eqb (substring 4 1 s) "-" && String.eqb (substring 7 1 s) "-"
         && String.eqb (substring 10 1 s) "T" && String.eqb (substring 13 1 s) ":"
         && String.eqb (substring 16 1 s) ":" && String.eqb (substring 19 1 s) "."
         && String.eqb (substring 23 2 s) "Z"
      then Fin ((((days_from_civil y mo d * 24 + h) * 60 + mi) * 60 + sec) * 1000 + ms)
      else NaN
  | _, _, _, _, _, _, _ => NaN
  end.

Definition host : Host :=
  {| StringToNumber := decimal; toLowerCase := lower; DateParse := iso |}.

End SampleHost.

(** * Vocabulary of the properties *)

Section Vocabulary.
Context `{!Host}.
Import Auth Agro FarmReport.

(** The value an object literal gives to a key: the last one written. *)
Fixpoint assoc (k : string) (l : list (string * value)) (d : value) : value :=
  match l with
  | [] => d
  | (k', v) :: l' => assoc k l' (if String.eqb k' k then v else d)
  end.

(** The week filter read as an overlap test: the inclusive intervals
    [s, e] and [a, b] have a week in common. *)
Definition overlaps (s e a b : Z) : Prop := s <= b /\ a <= e.

(** The interval [s, e] lies within [a, b]. *)
Definition within (s e a b : Z) : Prop := a <= s /\ e <= b.

(** The filter with the week bounds switched off. *)
Definition without_weeks (b : bounds) : bounds :=
  Bounds None None (pMin b) (pMax b) (dMin b) (dMax b).

(** An integer as a field value. *)
Definition num (z : Z) : value := VNum (Fin z).




(** The guards of [register] that come before the payroll check. *)
Definition well_formed (body : object) (users : list object) : Prop :=
  truthy (get body "username") = true
  /\ truthy (get body "password") = true
  /\ truthy (get body "role") = true
  /\ truthy (get body "payrollNumber") = true
  /\ includes ROLES (get body "role") = true
  /\ user_named users (get body "username") = None.

(** The payroll number of the request has no record, or its record has
    another role than the requested one. *)
Definition payroll_mismatch (body : object) (payroll : list object) : Prop :=
  role_rejected (payroll_record payroll (get body "payrollNumber"))
                (get body "role") = true.

(** [findIndex] returns the first position that satisfies the test. *)
Definition first_at {A} (p : A -> bool) (l : list A) (i : nat) (x : A) : Prop :=
  l !! i = Some x /\ p x = true
  /\ forall (j : nat) (y : A), (j < i)%nat -> l !! j = Some y -> p y = false.

(** The test of [rows.findIndex] in [supervisor_remarks]. *)
Definition has_id (id : value) (r : object) : bool :=
  strict_eq (get r "id") (VNum (ToNumber id)).




(** The creation time and the identifier of the row are numbers: the
    [createdAt] field, when present, parses as a date, and so on. *)
Definition timed (r : object) : Prop :=
  isNaN (created_ms r) = false /\ isNaN (id_num r) = false.

(** [a] may come before [b]: it is newer, or as old with an identifier that
    is not smaller. *)
Definition precedes (a b : object) : Prop :=
  match created_ms a, created_ms b, id_num a, id_num b with
  | Fin ta, Fin tb, Fin ia, Fin ib => tb < ta \/ (ta = tb /\ ib <= ia)
  | _, _, _, _ => False
  end.






End Vocabulary.

(** ** Sample data *)

Definition week_query : object := obj [("weekFrom", VStr "2"); ("weekTo", VStr "5")].

Definition week_row (id : Z) (weekRange : string) : object :=
  obj [("id", VNum (Fin id)); ("weekRange", VStr weekRange)].

Definition week_rows : list object :=
  [week_row 1 "1-3"; week_row 2 "4-4"; week_row 3 "6-8"].



Definition payroll_table : list object :=
  [obj [("payrollNumber", VStr "P-17"); ("role", VStr "Viewer")]].

Definition user_list : list object :=
  [obj [("id", num 1); ("username", VStr "amina"); ("password", VStr "pw");
        ("role", VStr "Viewer"); ("payrollNumber", VStr "P-17");
        ("createdAt", VStr "2024-03-01T12:30:00.000Z")]].

Definition request (username : string) : object :=
  obj [("username", VStr username); ("password", VStr "secret");
       ("role", VStr "Agronomist"); ("payrollNumber", VStr "P-17")].

Definition remarked : list object :=
  [obj [("id", num 1); ("farm", VStr "North"); ("supervisorRemarks", VStr "seen")];
   obj [("id", num 2); ("farm", VStr "South"); ("supervisorRemarks", VStr "")]].

Definition inspections : list object :=
  [obj [("id", num 1); ("year", VStr "2024"); ("weekRange", VStr "1-3");
        ("farm", VStr "North"); ("greenhouse", VStr "GH1");
        ("pestRate", num 2); ("diseaseRate", num 0);
        ("createdAt", VStr "2024-03-01T12:30:00.000Z")]].


Definition complete : object :=
  obj [("weekRange", VStr " 4-4 "); ("farm", VStr "North"); ("greenhouse", VStr "GH2");
       ("pestRate", VStr "3"); ("diseaseRate", VStr "high")].




Definition report (id : Z) (created : value) : object :=
  obj [("id", num id); ("weekRange", VStr "4-4"); ("farm", VStr "North");
       ("greenhouse", VStr "GH1"); ("createdAt", created)].

Definition reports : list object :=
  [report 1 (VStr "2024-03-01T12:30:00.000Z");
   report 2 VUndef;
   report 3 (VStr "2024-03-02T08:00:00.000Z");
   report 4 (VStr "2024-03-01T12:30:00.000Z");
   report 5 VUndef].





(** * The other routes and helpers *)

(** ** Failing calls

    A method call on a value that has no such method ([(5).trim()],
    [true.toLowerCase()]) raises a [TypeError], which leaves the handler
    without a response of its own. *)
Inductive outcome (A : Type) :=
  | Returns (a : A)
  | Throws.

Arguments Returns {A} a.
Arguments Throws {A}.

Definition bind {A B} (o : outcome A) (f : A -> outcome B) : outcome B :=
  match o with
  | Returns a => f a
  | Throws => Throws
  end.

(** [arr.filter(p)] for a callback that may throw. *)
Fixpoint filter_throwing {A} (p : A -> outcome bool) (l : list A) : outcome (list A) :=
  match l with
  | [] => Returns []
  | x :: l' =>
      bind (p x) (fun keep =>
      bind (filter_throwing p l') (fun kept =>
      Returns (if keep then x :: kept else kept)))
  end.

(** [s.includes(q)] *)
Fixpoint str_includes (s q : string) : bool :=
  String.prefix q s
  || match s with
     | String _ s' => str_includes s' q
     | EmptyString => false
     end.

(** [Object.values(r)] *)
Definition values (r : object) : list value := map snd (map_to_list r).

(** ** The session gate *)

Module Gate.

(** What a middleware does with the request. *)
Inductive verdict :=
  | Next
  | Redirect (to : string)
  | Json (status : nat) (body : object)
  | Send (status : nat) (text : string).

(** [req.session.user], absent or [{ username, role }]. *)
Abbreviation session := (option object).

Definition requireLoginPage (s : session) : verdict :=
  match s with
  | None => Redirect "/login.html"
  | Some _ => Next
  end.

Definition requireLoginApi (s : session) : verdict :=
  match s with
  | None => Json 401 (obj [("success", VBool false); ("message", VStr "Unauthorized")])
  | Some _ => Next
  end.

Definition requireAnyRolePage (allowed : list value) (s : session) : verdict :=
  match s with
  | None => Redirect "/login.html"
  | Some user =>
      if negb (includes allowed (get user "role")) then Send 403 "Forbidden" else Next
  end.

Definition requireAnyRoleApi (allowed : list value) (s : session) : verdict :=
  match s with
  | None => Json 401 (obj [("success", VBool false); ("message", VStr "Unauthorized")])
  | Some user =>
      if negb (includes allowed (get user "role"))
      then Json 403 (obj [("success", VBool false); ("message", VStr "Forbidden")])
      else Next
  end.

Definition Viewer : value := VStr "Viewer".
Definition Supervisor : value := VStr "Supervisor".
Definition Agronomist : value := VStr "Agronomist".
Definition GeneralManager : value := VStr "GeneralManager".

(** A gated route: its method and path, whether it is a page, and the roles
    given to its gate. *)
Record route := Route {
  method : string;
  path : string;
  page : bool;
  allowed : list value
}.

(** The routes of the second revision that are registered behind a gate, in
    the order of the file ([/agro/search] is registered twice). *)
Definition routes : list route :=
  [Route "GET" "/viewer.html" true [Viewer; Supervisor; Agronomist; GeneralManager];
   Route "GET" "/supervisor.html" true [Supervisor; Agronomist; GeneralManager];
   Route "GET" "/agronomist.html" true [Agronomist; GeneralManager];
   Route "GET" "/farmreport.html" true [Agronomist; GeneralManager];
   Route "GET" "/agro" false [Viewer; Supervisor; Agronomist; GeneralManager];
   Route "POST" "/agro/add" false [Agronomist; GeneralManager];
   Route "POST" "/agro/save" false [Agronomist; GeneralManager];
   Route "POST" "/agro/bulk_set" false [Agronomist; GeneralManager];
   Route "POST" "/agro/supervisor-remarks" false [Supervisor; Agronomist; GeneralManager];
   Route "GET" "/agro/search" false [Viewer; Supervisor; Agronomist; GeneralManager];
   Route "GET" "/agro/export" false [Agronomist; GeneralManager; Supervisor; Viewer];
   Route "POST" "/agro/import" false [Agronomist; GeneralManager];
   Route "GET" "/agro/search" false [Viewer; Supervisor; Agronomist; GeneralManager];
   Route "GET" "/farmreport" false [Viewer; Supervisor; Agronomist; GeneralManager];
   Route "POST" "/farmreport" false [Agronomist; GeneralManager];
   Route "GET" "/farmreport/search" false [Viewer; Supervisor; Agronomist; GeneralManager];
   Route "GET" "/farmreport/charts" false [Viewer; Supervisor; Agronomist; GeneralManager];
   Route "GET" "/farmreport/export" false [Viewer; Supervisor; Agronomist; GeneralManager]].

Definition gate (r : route) (s : session) : verdict :=
  if page r then requireAnyRolePage (allowed r) s else requireAnyRoleApi (allowed r) s.

(** *** [POST /login], [POST /logout], [GET /check-session] *)

(** The response and [req.session.user] afterwards. *)
Definition login (body : object) (users : list object) (s : session)
  : response * session :=
  let username := get body "username" in
  let password := get body "password" in
  match arr_find (fun u => strict_eq (get u "username") username
                           && strict_eq (get u "password") password) users with
  | None => (failure 200 "Invalid credentials", s)
  | Some user =>
      (ok [("role", get user "role"); ("username", get user "username")],
       Some (obj [("username", get user "username"); ("role", get user "role")]))
  end.

Definition logout (s : session) : response * session := (ok [], None).

Definition check_session (s : session) : response :=
  match s with
  | Some user => Response 200 (obj [("loggedIn", VBool true); ("role", get user "role")]) None
  | None => Response 401 (obj [("loggedIn", VBool false)]) None
  end.

End Gate.

(** ** Reading the agronomy store *)

Module AgroQuery.
Section AgroQuery.
Context `{!Host}.

(** *** [GET /agro] *)

(** [(req.query.k || "").trim().toLowerCase()] *)
Definition filter_text (v : value) : outcome string :=
  match js_or v (VStr "") with
  | VStr s => Returns (toLowerCase (trim s))
  | _ => Throws
  end.

(** [!f || (r.k && r.k.toLowerCase() === f)], as a condition *)
Definition exact_match (f : string) (field : value) : outcome bool :=
  if String.eqb f "" then Returns true
  else if truthy field
  then match field with
       | VStr s => Returns (String.eqb (toLowerCase s) f)
       | _ => Throws
       end
  else Returns false.

(** [!q || values.some(v => v.includes(q))] *)
Definition text_match (q : string) (r : object) : bool :=
  String.eqb q ""
  || existsb (fun v => str_includes v q)
             (map (fun v => toLowerCase (ToString v)) (values r)).

(** The callback of [agroData.filter]. *)
Definition list_keeps (q farmFilter ghFilter timeFilter : string) (r : object)
  : outcome bool :=
  let textMatch := text_match q r in
  bind (exact_match farmFilter (get r "farm")) (fun farmMatch =>
  bind (exact_match ghFilter (get r "gh")) (fun ghMatch =>
  bind (exact_match timeFilter (get r "time")) (fun timeMatch =>
  Returns (textMatch && farmMatch && ghMatch && timeMatch)))).

Definition listing (query : object) (agroData : list object) : outcome (list object) :=
  bind (filter_text (get query "q")) (fun q =>
  bind (filter_text (get query "farm")) (fun farmFilter =>
  bind (filter_text (get query "gh")) (fun ghFilter =>
  bind (filter_text (get query "time")) (fun timeFilter =>
  filter_throwing (list_keeps q farmFilter ghFilter timeFilter) agroData)))).

(** *** [GET /agro/search] *)

(** [String(r.k || "").toLowerCase().includes(f.toLowerCase())] *)
Definition field_includes (f : string) (k : string) (r : object) : bool :=
  str_includes (toLowerCase (ToString (js_or (get r k) (VStr "")))) (toLowerCase f).

(** [if (p) rows = rows.filter(r => ... p.toLowerCase() ...)]: the callback
    calls [p.toLowerCase()], once for every row. *)
Definition narrow (p : value) (k : string) (rows : list object) : outcome (list object) :=
  if truthy p
  then match p with
       | VStr f => Returns (List.filter (field_includes f k) rows)
       | _ => match rows with [] => Returns [] | _ :: _ => Throws end
       end
  else Returns rows.

(** [Object.values(r).some(v => String(v || "").toLowerCase().includes(qLower))] *)
Definition any_includes (qLower : string) (r : object) : bool :=
  existsb (fun v => str_includes (toLowerCase (ToString (js_or v (VStr "")))) qLower)
          (values r).

(** [if (q) { const qLower = q.toLowerCase(); rows = rows.filter(...) }] *)
Definition narrow_any (q : value) (rows : list object) : outcome (list object) :=
  if truthy q
  then match q with
       | VStr s => Returns (List.filter (any_includes (toLowerCase s)) rows)
       | _ => Throws
       end
  else Returns rows.

(** The comparator [(a, b) => (b.id || 0) - (a.id || 0)]. *)
Definition id_descending (a b : object) : number :=
  num_sub (ToNumber (js_or (get b "id") (VNum (Fin 0))))
          (ToNumber (js_or (get a "id") (VNum (Fin 0)))).

Definition search (query : object) (rows : list object) : outcome (list object) :=
  bind (narrow (get query "farm") "farm" rows) (fun rows =>
  bind (narrow (get query "gh") "gh" rows) (fun rows =>
  bind (narrow (get query "time") "time" rows) (fun rows =>
  bind (narrow_any (get query "q") rows) (fun rows =>
  Returns (arr_sort id_descending rows))))).

End AgroQuery.
End AgroQuery.

(** ** Farm reports: start-up and charts *)

Module FarmCharts.
Section FarmCharts.
Context `{!Host}.

(** [ensureCreatedAtForFarmReport]: [clock k] is the value of
    [new Date().toISOString()] while the loop is at row [k].  The result is
    the flag [changed] and the rows as the loop leaves them; the file is
    written only when the flag is set. *)
Fixpoint stamp_from (clock : nat -> string) (k : nat) (rows : list object)
  : bool * list object :=
  match rows with
  | [] => (false, [])
  | r :: rows' =>
      let '(changed, rest) := stamp_from clock (S k) rows' in
      if negb (truthy (get r "createdAt"))
      then (true, set_field "createdAt" (VStr (clock k)) r :: rest)
      else (changed, r :: rest)
  end.

Definition ensureCreatedAtForFarmReport (clock : nat -> string) (rows : list object)
  : bool * list object :=
  stamp_from clock 0 rows.

(** The file after [ensureCreatedAtForFarmReport]. *)
Definition after_startup (clock : nat -> string) (rows : list object) : list object :=
  let '(changed, stamped) := ensureCreatedAtForFarmReport clock rows in
  if changed then stamped else rows.

(** [parseWeekRange(a.weekRange).start || 0] *)
Definition week_start (a : object) : number :=
  or0 (fst (FarmReport.parseWeekRange (get a "weekRange"))).

(** The comparator of the sort in [/farmreport/charts]. *)
Definition by_week (a b : object) : number :=
  num_sub (week_start a) (week_start b).

(** [{ year, farm, greenhouse, pest, disease }] out of [req.query] *)
Definition chart_query (query : object) : object :=
  obj [("year", get query "year");
       ("farm", get query "farm");
       ("greenhouse", get query "greenhouse");
       ("pest", get query "pest");
       ("disease", get query "disease")].

Definition charts (query : object) (rows : list object) : list object :=
  arr_sort by_week (FarmReport.filterFarmRows (chart_query query) rows).

End FarmCharts.
End FarmCharts.

(** * Vocabulary of the further properties *)

Section Vocabulary2.
Context `{!Host}.
Import FarmReport.


(** The query parameters that [filterFarmRows] reads. *)
Definition exact_keys : list string :=
  ["year"; "farm"; "greenhouse"; "bed"; "crop"; "variety"; "pest"; "disease"].

Definition bound_keys : list string :=
  ["weekFrom"; "weekTo"; "pestRateMin"; "pestRateMax"; "diseaseRateMin";
   "diseaseRateMax"].

(** A parameter that is not sent, or sent empty as a blank form field is. *)
Definition blank (v : value) : Prop := v = VUndef \/ v = VStr "".

(** The row has the text of the filter in that field, letter case aside, or
    the filter is not set. *)
Definition agrees (q field : value) : Prop :=
  truthy q = true ->
  toLowerCase (ToString (js_or field (VStr ""))) = toLowerCase (ToString q).

(** The rate of a row as the filter reads it: [Number(r.k) || 0]. *)
Definition rate (r : object) (k : string) : number := or0 (ToNumber (get r k)).

(** [lo <= x <= hi] for the bounds that are numbers; a bound that is not set
    or not a number does not restrict. *)
Definition between (lo hi : option number) (x : number) : Prop :=
  (forall m p, lo = Some (Fin m) -> x = Fin p -> m <= p)
  /\ (forall m p, hi = Some (Fin m) -> x = Fin p -> p <= m).

End Vocabulary2.

Section Vocabulary3.
Context `{!Host}.

(** The week a row is charted at: the start of its range, [0] when the range
    does not parse. *)
Definition week_key (a : object) : Z :=
  match FarmCharts.week_start a with
  | Fin z => z
  | NaN => 0
  end.

(** The parameters that [/farmreport/charts] hands on to the filter. *)
Definition chart_keys : list string := ["year"; "farm"; "greenhouse"; "pest"; "disease"].

(** The rows of [l] whose key is [w], in their order. *)
Definition keyed {A} (key : A -> Z) (w : Z) (l : list A) : list A :=
  List.filter (fun a => Z.eqb (key a) w) l.

End Vocabulary3.

(** The place of a role in the order Viewer, Supervisor, Agronomist,
    GeneralManager; [None] for any other value. *)
Definition rank (role : value) : option nat :=
  if bool_decide (role = Gate.Viewer) then Some 0%nat
  else if bool_decide (role = Gate.Supervisor) then Some 1%nat
  else if bool_decide (role = Gate.Agronomist) then Some 2%nat
  else if bool_decide (role = Gate.GeneralManager) then Some 3%nat
  else None.

(** No two rows of [l] have values of [f] that are [===]. *)
Definition distinct_by (f : object -> value) (l : list object) : Prop :=
  forall (i j : nat) (a b : object),
    l !! i = Some a -> l !! j = Some b -> i <> j -> strict_eq (f a) (f b) = false.

Definition username (u : object) : value := get u "username".

Definition identifier (r : object) : value := get r "id".

Definition session_user : object :=
  obj [("username", VStr "amina"); ("role", VStr "Supervisor")].

Section Vocabulary4.
Context `{!Host}.
Import Agro.





End Vocabulary4.

Section Vocabulary5.
Context `{!Host}.
Import Agro.

(** The [supervisorRemarks] of the row is absent, [null] or a text. *)
Definition remark_ok (row : object) : Prop :=
  nullish (get row "supervisorRemarks") = true
  \/ exists s, get row "supervisorRemarks" = VStr s.

(** A batch for [bulk_set] in which every row has an identifier of its own,
    no two rows have the same one, and the remarks are as above. *)
Definition identified (batch : list object) : Prop :=
  (forall row, In row batch -> truthy (get row "id") = true /\ remark_ok row)
  /\ distinct_by identifier batch.

(** The set already holds what [bulk_set] would make of [row]: merging the
    row into the first row with its identifier changes nothing. *)
Definition absorbed (rows : list object) (row : object) : Prop :=
  exists (idx : nat) (old : object),
    first_at (fun r => strict_eq (get r "id") (get row "id")) rows idx old
    /\ merge_row old row = old.

End Vocabulary5.

Section Vocabulary6.
Context `{!Host}.
Import AgroQuery.

(** A query parameter that is missing, empty or a text: what a query string
    gives. *)
Definition text_param (v : value) : Prop := exists s, js_or v (VStr "") = VStr s.

(** A field that is missing, empty or a text. *)
Definition text_field (v : value) : Prop := truthy v = false \/ exists s, v = VStr s.

(** The filter that [GET /agro] makes of a text parameter: trimmed, in lower
    case. *)
Definition filter_of (query : object) (k : string) : string :=
  toLowerCase (trim (ToString (js_or (get query k) (VStr "")))).

(** The fields [GET /agro] and [GET /agro/search] filter on. *)
Definition exact_fields : list string := ["farm"; "gh"; "time"].

(** The row has the filter as its field, letter case aside. *)
Definition field_is (f : string) (v : value) : Prop :=
  exists s, v = VStr s /\ s <> "" /\ toLowerCase s = f.

(** The test of [GET /agro/search] for one parameter, when it is a text. *)
Definition wanted (p : value) (test : string -> bool) : bool :=
  match p with
  | VStr s => if truthy p then test s else true
  | _ => true
  end.

Definition found (query : object) (r : object) : bool :=
  wanted (get query "farm") (fun f => field_includes f "farm" r)
  && wanted (get query "gh") (fun f => field_includes f "gh" r)
  && wanted (get query "time") (fun f => field_includes f "time" r)
  && wanted (get query "q") (fun s => any_includes (toLowerCase s) r).

(** The identifier a row is sorted by in [GET /agro/search]. *)
Definition id_key (r : object) : Z :=
  match ToNumber (js_or (get r "id") (VNum (Fin 0))) with
  | Fin z => z
  | NaN => 0
  end.

Definition numbered (r : object) : Prop :=
  isNaN (ToNumber (js_or (get r "id") (VNum (Fin 0)))) = false.

End Vocabulary6.


(** ** Further sample data *)

Definition blank_query : object :=
  obj [("farm", VStr ""); ("weekFrom", VStr ""); ("pestRateMax", VStr "")].

Definition noon (k : nat) : string := "2024-03-02T08:00:00.000Z".

Definition save_route : Gate.route :=
  Gate.Route "POST" "/agro/save" false [Gate.Agronomist; Gate.GeneralManager].

Definition newcomer : object :=
  obj [("username", VStr "baraka"); ("password", VStr "secret");
       ("role", VStr "Viewer"); ("payrollNumber", VStr "P-17")].

Definition batch : list object :=
  [obj [("id", num 1); ("farm", VStr "North"); ("crop", VStr "Rose")];
   obj [("id", num 3); ("farm", VStr "East"); ("supervisorRemarks", VStr "check")]].

Definition remark (id : Z) (text : string) : object :=
  obj [("id", num id); ("supervisorRemarks", VStr text)].

Definition sheet_rows : list object :=
  [obj [("id", num 1); ("farm", VStr "North"); ("gh", VStr "GH1")];
   obj [("id", num 2); ("farm", num 7)];
   obj [("id", num 3); ("farm", VStr "Northfield"); ("gh", VStr "GH2")]].

Definition farm_query (farm : string) : object := obj [("farm", VStr farm)].

Definition own_query : object :=
  obj [("farm", VStr "North"); ("greenhouse", VStr "GH2"); ("crop", VStr "")].

(** * Properties *)

(** ** Objects, arrays and numbers *)

Lemma get_set_field_eq (k : string) (v : value) (r : object) :
  get (set_field k v r) k = v.
Proof.
  unfold get, set_field.
  destruct v; rewrite ?lookup_delete_eq, ?lookup_insert_eq; reflexivity.
Qed.

Lemma get_set_field_ne (k k' : string) (v : value) (r : object) :
  k <> k' -> get (set_field k v r) k' = get r k'.
Proof.
  intros Hne. unfold get, set_field.
  destruct v; rewrite ?lookup_delete_ne, ?lookup_insert_ne by done; reflexivity.
Qed.

Lemma get_empty (k : string) : get ∅ k = VUndef.
Proof. unfold get. rewrite lookup_empty. reflexivity. Qed.

Lemma get_spread (a b : object) (k : string) :
  get (spread a b) k = match b !! k with Some v => v | None => get a k end.
Proof.
  unfold get, spread. destruct (b !! k) as [v|] eqn:Hb.
  - erewrite lookup_union_Some_l by eassumption. reflexivity.
  - rewrite lookup_union_r by assumption. reflexivity.
Qed.

Lemma get_fold_set_field (l : list (string * value)) (r : object) (k : string) :
  get (fold_left (fun r kv => set_field kv.1 kv.2 r) l r) k = assoc k l (get r k).
Proof.
  revert r. induction l as [|[k' v] l IH]; intros r; simpl; [reflexivity|].
  rewrite IH. f_equal. destruct (String.eqb_spec k' k) as [->|Hne].
  - apply get_set_field_eq.
  - apply get_set_field_ne. exact Hne.
Qed.

Lemma get_obj (l : list (string * value)) (k : string) :
  get (obj l) k = assoc k l VUndef.
Proof. unfold obj. rewrite get_fold_set_field, get_empty. reflexivity. Qed.

Lemma insert_sorted_perm {A} (cmp : A -> A -> number) (x : A) (l : list A) :
  Permutation (insert_sorted cmp x l) (x :: l).
Proof.
  induction l as [|y l IH]; simpl; [reflexivity|].
  destruct (is_positive (cmp x y)); [|reflexivity].
  rewrite IH. apply perm_swap.
Qed.

Lemma arr_sort_perm {A} (cmp : A -> A -> number) (l : list A) :
  Permutation (arr_sort cmp l) l.
Proof.
  induction l as [|x l IH]; simpl; [reflexivity|].
  rewrite insert_sorted_perm. apply perm_skip, IH.
Qed.

Lemma In_arr_sort {A} (cmp : A -> A -> number) (l : list A) (x : A) :
  In x (arr_sort cmp l) <-> In x l.
Proof.
  split; apply Permutation_in; [|symmetry]; apply arr_sort_perm.
Qed.

(** ** The week filter of the farm-report search *)

Section WeekFilter.
Context `{!Host}.
Import FarmReport.

Lemma week_rejects_within (r : object) (s e a b : Z) :
  parseWeekRange (get r "weekRange") = (Fin s, Fin e) ->
  week_rejects (Some (Fin a)) (Some (Fin b)) r = false <-> within s e a b.
Proof.
  intros Hp. unfold week_rejects, within. rewrite Hp. simpl.
  unfold num_gt. simpl.
  rewrite orb_false_iff, !Z.ltb_ge. reflexivity.
Qed.

Lemma keeps_weeks (query : object) (b : bounds) (r : object) :
  keeps query b r
  = negb (week_rejects (wf b) (wt b) r) && keeps query (without_weeks b) r.
Proof.
  unfold keeps. simpl.
  destruct (differs (get query "year") (get r "year")).
  - rewrite andb_false_r. reflexivity.
  - destruct (week_rejects (wf b) (wt b) r); reflexivity.
Qed.

(** C1, as the code has it: the week filter keeps a row when its interval
    lies within the filter's interval.  For a row whose week range parses to
    [s, e] and a query whose [weekFrom] and [weekTo] parse to [a] and [b],
    the row is in the search result iff it is stored, [a <= s] and [e <= b],
    and it passes the other filters; with [weekFrom=2], [weekTo=5] and the
    ranges "1-3", "4-4", "6-8" the result is the row "4-4" alone. *)
Theorem week_filter_is_containment :
  (forall (query : object) (rows : list object) (r : object) (s e a b : Z),
      parseWeekRange (get r "weekRange") = (Fin s, Fin e) ->
      wf (bounds_of query) = Some (Fin a) ->
      wt (bounds_of query) = Some (Fin b) ->
      In r (filterFarmRows query rows)
      <-> In r rows /\ within s e a b
          /\ keeps query (without_weeks (bounds_of query)) r = true)
  /\ filterFarmRows week_query week_rows = [week_row 2 "4-4"].
Proof.
  split.
  - intros query rows r s e a b Hp Hf Ht.
    unfold filterFarmRows. rewrite In_arr_sort, filter_In, keeps_weeks.
    rewrite Hf, Ht, andb_true_iff, negb_true_iff.
    rewrite (week_rejects_within r s e a b Hp). tauto.
  - reflexivity.
Qed.

End WeekFilter.

Section WeekFilterExamples.
#[local] Existing Instance SampleHost.host.

Lemma week_filter_is_containment_witness :
  FarmReport.parseWeekRange (get (week_row 2 "4-4") "weekRange") = (Fin 4, Fin 4)
  /\ FarmReport.wf (FarmReport.bounds_of week_query) = Some (Fin 2)
  /\ FarmReport.wt (FarmReport.bounds_of week_query) = Some (Fin 5)
  /\ (In (week_row 2 "4-4") (FarmReport.filterFarmRows week_query week_rows)
      <-> In (week_row 2 "4-4") week_rows /\ within 4 4 2 5
          /\ FarmReport.keeps week_query
               (without_weeks (FarmReport.bounds_of week_query)) (week_row 2 "4-4") = true).
Proof.
  split; [reflexivity|]. split; [reflexivity|]. split; [reflexivity|].
  apply (proj1 (week_filter_is_containment)); reflexivity.
Defined.

(** C1, as stated, fails: the row "1-3" overlaps the weeks 2 to 5 and the
    search leaves it out. *)
Lemma week_filter_is_not_overlap :
  FarmReport.parseWeekRange (get (week_row 1 "1-3") "weekRange") = (Fin 1, Fin 3)
  /\ FarmReport.wf (FarmReport.bounds_of week_query) = Some (Fin 2)
  /\ FarmReport.wt (FarmReport.bounds_of week_query) = Some (Fin 5)
  /\ In (week_row 1 "1-3") week_rows
  /\ overlaps 1 3 2 5
  /\ ~ In (week_row 1 "1-3")
         (FarmReport.filterFarmRows week_query week_rows)
  /\ FarmReport.filterFarmRows week_query week_rows
     <> [week_row 1 "1-3"; week_row 2 "4-4"].
Proof.
  split; [reflexivity|]. split; [reflexivity|]. split; [reflexivity|].
  split; [left; reflexivity|]. split; [unfold overlaps; lia|].
  assert (Hres : FarmReport.filterFarmRows week_query week_rows
                 = [week_row 2 "4-4"]) by reflexivity.
  rewrite Hres. split.
  - intros [Heq|[]]. apply (f_equal (fun r => get r "weekRange")) in Heq.
    vm_compute in Heq. discriminate.
  - discriminate.
Qed.

End WeekFilterExamples.

(** ** Identifiers handed out by [POST /agro/add] *)

Section AddIdentifiers.
Context `{!Host}.
Import Agro.








(** C10: the row stored by [add] has the empty string as
    [supervisorRemarks], whatever the request body holds in that field. *)
Theorem add_resets_supervisor_remarks (body : object) (rows : list object) :
  exists newRow : object,
    snd (add body rows) = rows ++ [newRow]
    /\ attached (fst (add body rows)) = Some newRow
    /\ get newRow "supervisorRemarks" = VStr "".
Proof.
  exists (new_row rows body). repeat split.
  unfold new_row. apply get_set_field_eq.
Qed.

End AddIdentifiers.

Section AddExamples.
#[local] Existing Instance SampleHost.host.



End AddExamples.

(** ** Registration against the payroll table *)

Section Registration.
Context `{!Host}.
Import Auth.

(** C8, with the earlier guards taken into account: a request whose payroll
    number has no record, or a record with another role, never succeeds and
    never changes the user list; it is answered with the payroll mismatch
    message whenever it has all four fields, a known role and a user name
    that is free. *)
Theorem register_payroll_mismatch
    (body : object) (now : string) (users payroll : list object) :
  payroll_mismatch body payroll ->
  snd (register body now users payroll) = users
  /\ get (json (fst (register body now users payroll))) "success" = VBool false
  /\ (well_formed body users ->
      get (json (fst (register body now users payroll))) "message" = VStr mismatch).
Proof.
  unfold payroll_mismatch, well_formed, register. intros Hrej.
  destruct (truthy (get body "username")); simpl; [|intuition discriminate].
  destruct (truthy (get body "password")); simpl; [|intuition discriminate].
  destruct (truthy (get body "role")); simpl; [|intuition discriminate].
  destruct (truthy (get body "payrollNumber")); simpl; [|intuition discriminate].
  destruct (includes ROLES (get body "role")); simpl; [|intuition discriminate].
  case_bool_decide as Huser; simpl.
  - repeat split. intros (_ & _ & _ & _ & _ & Hfree).
    rewrite Hfree in Huser. destruct Huser; discriminate.
  - rewrite Hrej. repeat split.
Qed.

End Registration.

Section RegistrationExamples.
#[local] Existing Instance SampleHost.host.

Lemma register_payroll_mismatch_witness :
  payroll_mismatch (request "baraka") payroll_table
  /\ well_formed (request "baraka") user_list
  /\ snd (Auth.register (request "baraka") "2024-03-02T08:00:00.000Z"
            user_list payroll_table) = user_list
  /\ get (json (fst (Auth.register (request "baraka") "2024-03-02T08:00:00.000Z"
                       user_list payroll_table))) "message" = VStr Auth.mismatch.
Proof.
  assert (Hm : payroll_mismatch (request "baraka") payroll_table) by reflexivity.
  assert (Hw : well_formed (request "baraka") user_list) by (repeat split).
  destruct (register_payroll_mismatch (request "baraka") "2024-03-02T08:00:00.000Z"
              user_list payroll_table Hm) as (Hu & _ & Hmsg).
  exact (conj Hm (conj Hw (conj Hu (Hmsg Hw)))).
Defined.

(** C8, as stated, fails: the recorded role differs from the requested one,
    yet the answer is that the user name exists, not the mismatch message. *)
Lemma register_reports_taken_name_first :
  payroll_mismatch (request "amina") payroll_table
  /\ snd (Auth.register (request "amina") "2024-03-02T08:00:00.000Z"
            user_list payroll_table) = user_list
  /\ get (json (fst (Auth.register (request "amina") "2024-03-02T08:00:00.000Z"
                       user_list payroll_table))) "message"
     = VStr "Username already exists"
  /\ get (json (fst (Auth.register (request "amina") "2024-03-02T08:00:00.000Z"
                       user_list payroll_table))) "message"
     <> VStr Auth.mismatch.
Proof.
  split; [reflexivity|]. split; [reflexivity|]. split; [reflexivity|].
  vm_compute. discriminate.
Qed.

End RegistrationExamples.

(** ** Searching an array *)

Lemma findIndex_None {A} (p : A -> bool) (l : list A) :
  findIndex p l = None <-> forall x, In x l -> p x = false.
Proof.
  induction l as [|y l IH]; simpl.
  - split; [intros _ x []|reflexivity].
  - destruct (p y) eqn:Hy.
    + split; [discriminate|]. intros Hall.
      rewrite (Hall y (or_introl eq_refl)) in Hy. discriminate.
    + destruct (findIndex p l); simpl.
      * split; [discriminate|]. intros Hall.
        assert (Hn : Some n = None); [|discriminate Hn].
        apply IH. intros x Hx. apply Hall. right. exact Hx.
      * split; [|reflexivity]. intros _ x [<-|Hx]; [exact Hy|].
        apply IH; [reflexivity|exact Hx].
Qed.

Lemma findIndex_Some {A} (p : A -> bool) (l : list A) (i : nat) :
  findIndex p l = Some i <-> exists x, first_at p l i x.
Proof.
  revert i. induction l as [|y l IH]; intros i; simpl.
  - split; [discriminate|]. intros (x & Hx & _). rewrite lookup_nil in Hx. discriminate.
  - destruct (p y) eqn:Hy.
    + split.
      * intros [= <-]. exists y. repeat split; [exact Hy|]. intros j z Hj. lia.
      * intros (x & Hx & Hpx & Hfirst). destruct i as [|i]; [reflexivity|].
        rewrite (Hfirst O y) in Hy; [discriminate|lia|reflexivity].
    + split.
      * destruct (findIndex p l) as [k|] eqn:Hk; simpl; [|discriminate].
        intros [= <-]. destruct (proj1 (IH k) eq_refl) as (x & Hx & Hpx & Hfirst).
        exists x. repeat split; [exact Hx|exact Hpx|].
        intros [|j] z Hj Hz; simpl in Hz; [congruence|].
        apply (Hfirst j); [lia|exact Hz].
      * intros (x & Hx & Hpx & Hfirst). destruct i as [|i]; simpl in Hx.
        { congruence. }
        assert (Hi : findIndex p l = Some i).
        { apply IH. exists x. repeat split; [exact Hx|exact Hpx|].
          intros j z Hj Hz. apply (Hfirst (S j)); [lia|exact Hz]. }
        rewrite Hi. reflexivity.
Qed.


(** ** The supervisor's remarks *)

Section SupervisorRemarks.
Context `{!Host}.
Import Agro.

(** C6, with the guard on the identifier taken into account: a request
    whose [id] is missing or falsy is a bad request, one whose [id] matches
    no row is answered "not found", and in both cases the file is left as it
    was; otherwise the first row with that identifier gets the remark (the
    empty string when none is sent), its other fields and all other rows
    staying as they were. *)
Theorem supervisor_remarks_patch (body : object) (rows : list object) :
  let id := get body "id" in
  let text := get body "supervisorRemarks" in
  (truthy id = false ->
   supervisor_remarks body rows = (failure 400 "Missing id", rows))
  /\ (truthy id = true ->
      (forall r, In r rows -> has_id id r = false) ->
      supervisor_remarks body rows = (failure 404 "Not found", rows))
  /\ (truthy id = true ->
      forall (idx : nat) (r : object),
        first_at (has_id id) rows idx r ->
        exists rows' r',
          supervisor_remarks body rows = (ok [], rows')
          /\ length rows' = length rows
          /\ rows' !! idx = Some r'
          /\ get r' "supervisorRemarks" = js_or text (VStr "")
          /\ (forall k, k <> "supervisorRemarks" -> get r' k = get r k)
          /\ (forall j, j <> idx -> rows' !! j = rows !! j)).
Proof.
  intros id text. unfold supervisor_remarks. fold id text.
  split; [|split].
  - intros ->. reflexivity.
  - intros -> Hnone. simpl.
    change (fun r : object => strict_eq (get r "id") (VNum (ToNumber id)))
      with (has_id id).
    rewrite (proj2 (findIndex_None (has_id id) rows) Hnone). reflexivity.
  - intros -> idx r Hfirst. simpl.
    change (fun r : object => strict_eq (get r "id") (VNum (ToNumber id)))
      with (has_id id).
    rewrite (proj2 (findIndex_Some (has_id id) rows idx) (ex_intro _ r Hfirst)).
    destruct Hfirst as (Hr & _ & _). rewrite Hr.
    eexists _, _. split; [reflexivity|].
    split; [apply length_insert|].
    split; [apply list_lookup_insert_eq; eapply lookup_lt_Some; exact Hr|].
    split; [apply get_set_field_eq|].
    split.
    + intros k Hk. apply get_set_field_ne. congruence.
    + intros j Hj. apply list_lookup_insert_ne. congruence.
Qed.

End SupervisorRemarks.

Section SupervisorRemarksExamples.
#[local] Existing Instance SampleHost.host.

Lemma supervisor_remarks_patch_witness :
  truthy (num 7) = true
  /\ (forall r, In r remarked -> has_id (num 7) r = false)
  /\ Agro.supervisor_remarks
       (obj [("id", num 7); ("supervisorRemarks", VStr "late")]) remarked
     = (failure 404 "Not found", remarked).
Proof.
  assert (Ht : truthy (num 7) = true) by reflexivity.
  assert (Hn : forall r, In r remarked -> has_id (num 7) r = false).
  { intros r [<-|[<-|[]]]; reflexivity. }
  exact (conj Ht (conj Hn
    (proj1 (proj2 (supervisor_remarks_patch
       (obj [("id", num 7); ("supervisorRemarks", VStr "late")]) remarked)) Ht Hn))).
Defined.

(** C6, as stated, fails: the identifier 0 matches no stored row, and the
    answer is a bad request, not "not found". *)
Lemma supervisor_remarks_rejects_zero :
  let body := obj [("id", num 0); ("supervisorRemarks", VStr "late")] in
  (forall r, In r remarked -> has_id (get body "id") r = false)
  /\ Agro.supervisor_remarks body remarked = (failure 400 "Missing id", remarked)
  /\ status (fst (Agro.supervisor_remarks body remarked)) <> 404%nat.
Proof.
  split; [intros r [<-|[<-|[]]]; reflexivity|].
  split; [reflexivity|]. vm_compute. discriminate.
Qed.

End SupervisorRemarksExamples.

(** ** Appending a farm report *)

Section FarmReportAppend.
Context `{!Host}.
Import FarmReport.





End FarmReportAppend.

Section FarmReportAppendExamples.
#[local] Existing Instance SampleHost.host.


End FarmReportAppendExamples.

(** ** Reconciling a batch in [POST /agro/save] *)

Section Save.
Context `{!Host}.
Import Agro.





End Save.

Section SaveExamples.
#[local] Existing Instance SampleHost.host.


End SaveExamples.

(** ** The order of the farm-report search result *)

Section SearchOrder.
Context `{!Host}.
Import FarmReport.

Lemma newest_first_sign (a b : object) :
  timed a -> timed b ->
  if is_positive (newest_first a b) then precedes b a else precedes a b.
Proof.
  unfold timed, precedes, newest_first, is_positive.
  destruct (created_ms a) as [|ta], (created_ms b) as [|tb],
           (id_num a) as [|ia], (id_num b) as [|ib]; simpl;
    intros [? ?] [? ?]; try discriminate.
  destruct (Z.eqb_spec ta tb); simpl.
  - destruct (Z.ltb_spec 0 (ib - ia)); lia.
  - destruct (Z.ltb_spec 0 (tb - ta)); lia.
Qed.

Lemma precedes_trans (a b c : object) : precedes a b -> precedes b c -> precedes a c.
Proof.
  unfold precedes.
  destruct (created_ms a), (created_ms b), (created_ms c),
           (id_num a), (id_num b), (id_num c); try tauto; lia.
Qed.

Lemma insert_sorted_precedes (x : object) (l : list object) :
  timed x -> List.Forall timed l -> StronglySorted precedes l ->
  StronglySorted precedes (insert_sorted newest_first x l).
Proof.
  intros Hx Hl Hs. induction Hs as [|y l Hs IH Hy]; simpl.
  - repeat constructor.
  - inversion Hl as [|? ? Hty Htl]; subst.
    pose proof (newest_first_sign x y Hx Hty) as Hsign.
    destruct (is_positive (newest_first x y)).
    + constructor; [apply IH; exact Htl|].
      apply (Permutation_Forall (x := x :: l)).
      * symmetry. apply insert_sorted_perm.
      * constructor; assumption.
    + constructor; [constructor; assumption|].
      constructor; [exact Hsign|].
      eapply List.Forall_impl; [|exact Hy].
      intros z Hz. eapply precedes_trans; eassumption.
Qed.

Lemma arr_sort_precedes (l : list object) :
  List.Forall timed l -> StronglySorted precedes (arr_sort newest_first l).
Proof.
  induction l as [|x l IH]; intros Hl; simpl; [constructor|].
  inversion Hl; subst. apply insert_sorted_precedes; [assumption| |auto].
  apply (Permutation_Forall (x := l)); [symmetry; apply arr_sort_perm|assumption].
Qed.

Lemma StronglySorted_lookup {A} (R : A -> A -> Prop) (l : list A) :
  StronglySorted R l ->
  forall (i j : nat) (a b : A),
    l !! i = Some a -> l !! j = Some b -> (i < j)%nat -> R a b.
Proof.
  induction 1 as [|x l Hs IH Hx]; intros i j a b Hi Hj Hlt.
  - rewrite lookup_nil in Hi. discriminate.
  - destruct j as [|j]; [lia|]. simpl in Hj. destruct i as [|i]; simpl in Hi.
    + injection Hi as <-. rewrite List.Forall_forall in Hx. apply Hx.
      apply list_elem_of_In, list_elem_of_lookup. exists j. exact Hj.
    + apply (IH i j); [assumption|assumption|lia].
Qed.

Lemma reduce_max_timed (rows : list object) (m : Z) :
  List.Forall timed rows ->
  exists m' : Z,
    reduce_max (fun r => js_or (get r "id") (VNum (Fin 0))) rows (Fin m) = Fin m'.
Proof.
  unfold reduce_max. revert m. induction rows as [|r rows IH]; intros m Hall; simpl.
  - exists m. reflexivity.
  - inversion Hall as [|? ? [_ Hid] Hrest]; subst. unfold id_num in Hid.
    destruct (ToNumber (js_or (get r "id") (VNum (Fin 0)))) as [|x]; [discriminate|].
    simpl. apply IH. exact Hrest.
Qed.

(** Whatever engine sorts the array, a result that is in the order of the
    comparator (no earlier element compares as greater than a later one) is
    in the order [precedes]. *)
Lemma comparator_order_precedes (l : list object) :
  List.Forall timed l ->
  (forall (i j : nat) (a b : object),
      l !! i = Some a -> l !! j = Some b -> (i < j)%nat ->
      is_positive (newest_first a b) = false) ->
  forall (i j : nat) (a b : object),
    l !! i = Some a -> l !! j = Some b -> (i < j)%nat -> precedes a b.
Proof.
  intros Hall Hord i j a b Hi Hj Hlt. rewrite List.Forall_forall in Hall.
  assert (Ha : timed a).
  { apply Hall, list_elem_of_In, list_elem_of_lookup. exists i. exact Hi. }
  assert (Hb : timed b).
  { apply Hall, list_elem_of_In, list_elem_of_lookup. exists j. exact Hj. }
  pose proof (newest_first_sign a b Ha Hb) as Hsign.
  rewrite (Hord i j a b Hi Hj Hlt) in Hsign. exact Hsign.
Qed.

(** The rows that [append] writes are of that kind, provided the host reads
    the time stamp it is given: the hypothesis of the ordering theorem is an
    invariant of the file. *)
Lemma append_keeps_timed (body : object) (now : string) (rows : list object) :
  truthy (VStr now) = true -> isNaN (DateParse now) = false ->
  List.Forall timed rows -> List.Forall timed (snd (append body now rows)).
Proof.
  intros Hnow Hparse Hall. unfold append.
  destruct (negb (truthy (get body "weekRange")) || negb (truthy (get body "farm"))
            || negb (truthy (get body "greenhouse"))); [exact Hall|].
  cbn [snd]. apply Forall_app. split; [exact Hall|]. constructor; [|constructor].
  destruct (reduce_max_timed rows 0 Hall) as [m Hm].
  unfold timed, created_ms, id_num, max_id. rewrite !get_obj, Hm.
  cbn [assoc String.eqb Ascii.eqb Bool.eqb num_add].
  rewrite Hnow. cbn [Date_getTime]. split; [exact Hparse|].
  unfold js_or. destruct (truthy (VNum (Fin (m + 1)))); reflexivity.
Qed.

(** C9: when the stored rows have proper times and identifiers, the search
    result holds the rows that pass the filters, ordered so that of any two
    rows the earlier one in the result has the later creation time, or the
    same creation time and an identifier that is not smaller; two rows
    without a creation time count as having the same one, and so are
    ordered by descending identifier. *)
Theorem search_newest_first (query : object) (rows : list object) :
  List.Forall timed rows ->
  let result := filterFarmRows query rows in
  Permutation result (List.filter (keeps query (bounds_of query)) rows)
  /\ (forall (i j : nat) (a b : object),
        result !! i = Some a -> result !! j = Some b -> (i < j)%nat ->
        precedes a b)
  /\ (forall (i j : nat) (a b : object),
        result !! i = Some a -> result !! j = Some b -> (i < j)%nat ->
        created_ms a = created_ms b ->
        exists ia ib, id_num a = Fin ia /\ id_num b = Fin ib /\ ib <= ia)
  /\ (forall (i j : nat) (a b : object),
        result !! i = Some a -> result !! j = Some b -> (i < j)%nat ->
        truthy (get a "createdAt") = false -> truthy (get b "createdAt") = false ->
        exists ia ib, id_num a = Fin ia /\ id_num b = Fin ib /\ ib <= ia).
Proof.
  intros Hrows result.
  assert (Hsorted : forall (i j : nat) (a b : object),
             result !! i = Some a -> result !! j = Some b -> (i < j)%nat ->
             precedes a b).
  { apply StronglySorted_lookup, arr_sort_precedes.
    rewrite List.Forall_forall in Hrows |- *.
    intros r Hr. apply filter_In in Hr as [Hr _]. apply Hrows, Hr. }
  assert (Htie : forall (i j : nat) (a b : object),
             result !! i = Some a -> result !! j = Some b -> (i < j)%nat ->
             created_ms a = created_ms b ->
             exists ia ib, id_num a = Fin ia /\ id_num b = Fin ib /\ ib <= ia).
  { intros i j a b Hi Hj Hlt Heq. pose proof (Hsorted i j a b Hi Hj Hlt) as Hp.
    unfold precedes in Hp. rewrite Heq in Hp.
    destruct (created_ms b), (id_num a) as [|ia], (id_num b) as [|ib]; try tauto.
    exists ia, ib. repeat split. lia. }
  split; [apply arr_sort_perm|]. split; [exact Hsorted|]. split; [exact Htie|].
  intros i j a b Hi Hj Hlt Ha Hb. apply (Htie i j a b Hi Hj Hlt).
  unfold created_ms. rewrite Ha, Hb. reflexivity.
Qed.

End SearchOrder.

Section SearchOrderExamples.
#[local] Existing Instance SampleHost.host.

Lemma search_newest_first_witness :
  List.Forall timed reports
  /\ map (fun r => get r "id") (FarmReport.filterFarmRows ∅ reports)
     = [num 3; num 4; num 1; num 5; num 2]
  /\ forall (i j : nat) (a b : object),
       FarmReport.filterFarmRows ∅ reports !! i = Some a ->
       FarmReport.filterFarmRows ∅ reports !! j = Some b -> (i < j)%nat ->
       precedes a b.
Proof.
  assert (Ht : List.Forall timed reports) by (repeat constructor).
  split; [exact Ht|]. split; [reflexivity|].
  exact (proj1 (proj2 (search_newest_first ∅ reports Ht))).
Defined.

End SearchOrderExamples.

(** ** Identifiers drawn from the counter of [bulk_set] and [import] *)

Section Counter.
Context `{!Host}.

Lemma strict_eq_true (a b : value) : strict_eq a b = true -> a = b.
Proof.
  unfold strict_eq. destruct a as [| | |[|n]|s]; try discriminate;
    intros Heq; apply bool_decide_eq_true in Heq; exact Heq.
Qed.






End Counter.

(** ** Remarks kept by [POST /agro/bulk_set] *)

Section BulkSet.
Context `{!Host}.
Import Agro.



Lemma merge_row_id (old row : object) :
  get row "id" = get old "id" -> get (merge_row old row) "id" = get old "id".
Proof.
  intros Hid. unfold merge_row. rewrite get_set_field_ne by discriminate.
  rewrite get_spread. unfold get in Hid. destruct (row !! "id"); [exact Hid|reflexivity].
Qed.




End BulkSet.

Section BulkSetExamples.
#[local] Existing Instance SampleHost.host.


End BulkSetExamples.

(** ** Rows replaced by [POST /agro/import] *)

Section ImportRows.
Context `{!Host}.
Import Agro.













End ImportRows.

Section ImportRowsExamples.
#[local] Existing Instance SampleHost.host.


End ImportRowsExamples.

(** ** The helpers on sample inputs *)

Example parseInt_examples :
  parseInt " 42px" = Fin 42 /\ parseInt "-7" = Fin (-7) /\ parseInt "" = NaN
  /\ parseInt "x1" = NaN /\ parseInt "0x10" = Fin 0.
Proof. repeat split; reflexivity. Qed.

Example split_examples :
  str_split "-" "1-3" = ["1"; "3"] /\ str_split "-" "" = [""]
  /\ str_split "-" "-3" = [""; "3"] /\ str_split "-" "7" = ["7"].
Proof. repeat split; reflexivity. Qed.

Example trim_examples : trim "  4-4 " = "4-4" /\ trim "" = "" /\ trim " " = "".
Proof. repeat split; reflexivity. Qed.

Example parseWeekRange_examples :
  FarmReport.parseWeekRange (VStr " 1-3 ") = (Fin 1, Fin 3)
  /\ FarmReport.parseWeekRange (VStr "4") = (Fin 4, Fin 4)
  /\ FarmReport.parseWeekRange (VStr "-3") = (Fin (-3), Fin (-3))
  /\ FarmReport.parseWeekRange (VStr "1-2-3") = (Fin 1, Fin 1)
  /\ FarmReport.parseWeekRange (VStr "a-b") = (NaN, NaN)
  /\ FarmReport.parseWeekRange VUndef = (NaN, NaN).
Proof. repeat split; reflexivity. Qed.

Example iso_examples :
  SampleHost.iso "1970-01-02T00:00:01.005Z" = Fin 86401005
  /\ SampleHost.iso "2024-03-01T12:30:00.000Z" = Fin 1709296200000
  /\ SampleHost.iso "yesterday" = NaN.
Proof. repeat split; reflexivity. Qed.

(** * Further properties *)

(** ** Strings: [trim], [split], digits *)

Lemma append_cons (a : ascii) (s t : string) : String a s +:+ t = String a (s +:+ t).
Proof. reflexivity. Qed.

Lemma append_empty_l (t : string) : "" +:+ t = t.
Proof. reflexivity. Qed.

Lemma append_empty_r (s : string) : s +:+ "" = s.
Proof.
  induction s as [|a s IH]; [reflexivity|]. rewrite append_cons, IH. reflexivity.
Qed.


Lemma rev_app_rev_app (s1 s2 s3 : string) :
  String.rev_app (String.rev_app s1 s2) s3 = String.rev_app s2 (s1 +:+ s3).
Proof.
  revert s2. induction s1 as [|a s1 IH]; intros s2; [reflexivity|].
  rewrite append_cons. cbn [String.rev_app]. rewrite IH. reflexivity.
Qed.

Lemma rev_rev (s : string) : String.rev (String.rev s) = s.
Proof. unfold String.rev. rewrite rev_app_rev_app, append_empty_r. reflexivity. Qed.

Lemma rev_app_append (s1 s2 s3 : string) :
  String.rev_app (s1 +:+ s2) s3 = String.rev_app s2 (String.rev_app s1 s3).
Proof.
  revert s3. induction s1 as [|a s1 IH]; intros s3; [reflexivity|].
  rewrite append_cons. cbn [String.rev_app]. apply IH.
Qed.

Lemma rev_snoc (s : string) (c : ascii) :
  String.rev (s +:+ String c "") = String c (String.rev s).
Proof. unfold String.rev. rewrite rev_app_append. reflexivity. Qed.

Lemma rev_cons (s : string) (c : ascii) :
  String.rev (String c s) = String.rev s +:+ String c "".
Proof.
  rewrite <- (rev_rev (String.rev s +:+ String c "")), rev_snoc, rev_rev. reflexivity.
Qed.

Lemma skip_ws_idem (s : string) : skip_ws (skip_ws s) = skip_ws s.
Proof.
  induction s as [|c s IH]; simpl; [reflexivity|].
  destruct (is_ws c) eqn:Hc; [exact IH|]. simpl. rewrite Hc. reflexivity.
Qed.

Lemma skip_ws_snoc (s : string) (c : ascii) :
  is_ws c = false -> exists t, skip_ws (s +:+ String c "") = t +:+ String c "".
Proof.
  intros Hc. induction s as [|a s IH].
  - rewrite append_empty_l. simpl. rewrite Hc. exists "". reflexivity.
  - rewrite append_cons. simpl.
    destruct (is_ws a); [exact IH|]. exists (String a s). reflexivity.
Qed.

(** [trim] leaves nothing to trim. *)
Lemma trim_idem (s : string) : trim (trim s) = trim s.
Proof.
  unfold trim. set (u := skip_ws s).
  assert (Hu : skip_ws u = u) by apply skip_ws_idem.
  destruct u as [|c u'] eqn:Eu.
  - reflexivity.
  - assert (Hc : is_ws c = false).
    { simpl in Hu. destruct (is_ws c); [|reflexivity].
      exfalso. apply (f_equal String.length) in Hu. simpl in Hu.
      assert (Hle : forall x, (String.length (skip_ws x) <= String.length x)%nat).
      { clear. induction x as [|a x IH]; simpl; [lia|]. destruct (is_ws a); simpl; lia. }
      specialize (Hle u'). lia. }
    rewrite rev_cons.
    destruct (skip_ws_snoc (String.rev u') c Hc) as [t Ht]. rewrite Ht.
    rewrite rev_snoc. simpl. rewrite Hc.
    rewrite <- rev_snoc, rev_rev, <- Ht, skip_ws_idem. reflexivity.
Qed.













(** ** Week ranges *)

Section WeekRanges.
Context `{!Host}.
Import FarmReport.

(** [parseWeekRange] gives two numbers or two [NaN], never one of each. *)
Lemma parseWeekRange_both (v : value) :
  parseWeekRange v = (NaN, NaN)
  \/ exists s e : Z, parseWeekRange v = (Fin s, Fin e).
Proof.
  unfold parseWeekRange.
  set (s := trim (ToString (js_or v (VStr "")))).
  destruct (str_split "-" s) as [|p0 [|p1 [|p2 ps]]];
    try (destruct (parseInt p0), (parseInt p1); simpl);
    destruct (parseInt s); simpl; eauto.
Qed.


(** X2: the week test of the search with any combination of bounds.  With no
    bound set every row passes; otherwise a row passes iff its range parses,
    starts at or after [weekFrom] when that is a number, and ends at or before
    [weekTo] when that is a number.  A bound that is set but is not a number
    restricts nothing, yet still drops the rows whose range does not parse. *)
Theorem week_filter_bounds (wf wt : option number) (r : object) :
  week_rejects wf wt r = false
  <-> (wf = None /\ wt = None)
      \/ exists s e : Z,
           parseWeekRange (get r "weekRange") = (Fin s, Fin e)
           /\ (forall a, wf = Some (Fin a) -> a <= s)
           /\ (forall b, wt = Some (Fin b) -> e <= b).
Proof.
  unfold week_rejects.
  destruct (parseWeekRange_both (get r "weekRange")) as [Hp|(s & e & Hp)]; rewrite Hp.
  - destruct wf as [wf|], wt as [wt|]; simpl; split;
      try discriminate; try (intros _; left; split; reflexivity);
      intros [[? ?]|(s & e & ? & _)]; first [reflexivity|discriminate].
  - assert (Hgo : forall (P : Prop),
               (P <-> (forall a, wf = Some (Fin a) -> a <= s)
                      /\ (forall b, wt = Some (Fin b) -> e <= b)) ->
               P <-> (wf = None /\ wt = None)
                     \/ exists s0 e0 : Z,
                          (Fin s, Fin e) = (Fin s0, Fin e0)
                          /\ (forall a, wf = Some (Fin a) -> a <= s0)
                          /\ (forall b, wt = Some (Fin b) -> e0 <= b)).
    { intros P HP. rewrite HP. split.
      - intros [? ?]. right. exists s, e. auto.
      - intros [[-> ->]|(s0 & e0 & [= <- <-] & ? & ?)]; [|auto].
        split; intros ? ?; discriminate. }
    destruct wf as [[|a]|], wt as [[|b]|]; simpl; apply Hgo; unfold num_gt; simpl;
      rewrite ?orb_false_iff, ?Z.ltb_ge; split;
      try (intros; split; intros ? [= ?]; subst; lia);
      try (intros [Ha Hb]; try split; try reflexivity;
           try (apply Ha; reflexivity); try (apply Hb; reflexivity)).
Qed.

End WeekRanges.

(** ** What the farm-report search returns *)

Section SearchContents.
Context `{!Host}.
Import FarmReport.

Lemma optional_blank (f : value -> number) (v : value) : blank v -> optional f v = None.
Proof. intros [->| ->]; reflexivity. Qed.

Lemma differs_blank (q field : value) : blank q -> differs q field = false.
Proof. intros [->| ->]; reflexivity. Qed.

Lemma filter_all {A} (p : A -> bool) (l : list A) :
  (forall x, In x l -> p x = true) -> List.filter p l = l.
Proof.
  induction l as [|x l IH]; intros Hall; simpl; [reflexivity|].
  rewrite (Hall x (or_introl eq_refl)), IH; [reflexivity|].
  intros y Hy. apply Hall. right. exact Hy.
Qed.

(** X3: a search in which every parameter is missing or empty returns all
    the stored rows. *)
Theorem search_without_filters (query : object) (rows : list object) :
  (forall k, In k (exact_keys ++ bound_keys) -> blank (get query k)) ->
  Permutation (filterFarmRows query rows) rows.
Proof.
  intros Hblank. unfold filterFarmRows. rewrite arr_sort_perm.
  rewrite filter_all; [reflexivity|]. intros r _.
  unfold keeps, bounds_of.
  rewrite !optional_blank by (apply Hblank; simpl; tauto).
  rewrite !differs_blank by (apply Hblank; simpl; tauto).
  reflexivity.
Qed.

Lemma differs_agrees (q field : value) : differs q field = false <-> agrees q field.
Proof.
  unfold differs, agrees. destruct (truthy q); simpl.
  - rewrite negb_false_iff, String.eqb_eq. tauto.
  - split; [discriminate|reflexivity].
Qed.

Lemma beyond_between (lo hi : option number) (x : number) :
  beyond num_lt x lo = false /\ beyond num_gt x hi = false <-> between lo hi x.
Proof.
  unfold between, beyond, num_gt.
  destruct x as [|p].
  - split.
    + intros _. split; intros ? ? _ [=].
    + intros _. destruct lo as [[|?]|], hi as [[|?]|]; split; reflexivity.
  - destruct lo as [[|m]|], hi as [[|n]|]; simpl; rewrite ?Z.ltb_ge; split;
      try (intros [? ?]; split; intros ? ? [= ?] [= ?]; subst; lia);
      try (intros [Hlo Hhi]; split; try reflexivity;
           try (apply (Hlo m p); reflexivity); try (apply (Hhi n p); reflexivity)).
Qed.

(** X4: the search returns exactly the stored rows that pass every filter
    that is set: each text filter compares the whole field, letter case
    aside; the week test is that of [week_rejects]; and each rate, read as a
    number with 0 for anything else, lies between its two bounds, both
    included. *)
Theorem search_contents (query : object) (rows : list object) (r : object) :
  In r (filterFarmRows query rows)
  <-> In r rows
      /\ (forall k, In k exact_keys -> agrees (get query k) (get r k))
      /\ week_rejects (wf (bounds_of query)) (wt (bounds_of query)) r = false
      /\ between (pMin (bounds_of query)) (pMax (bounds_of query)) (rate r "pestRate")
      /\ between (dMin (bounds_of query)) (dMax (bounds_of query))
           (rate r "diseaseRate").
Proof.
  unfold filterFarmRows. rewrite In_arr_sort, filter_In.
  apply and_iff_compat_l.
  rewrite <- !beyond_between. unfold rate.
  assert (Hkeys : (forall k, In k exact_keys -> agrees (get query k) (get r k))
                  <-> differs (get query "year") (get r "year") = false
                      /\ differs (get query "farm") (get r "farm") = false
                      /\ differs (get query "greenhouse") (get r "greenhouse") = false
                      /\ differs (get query "bed") (get r "bed") = false
                      /\ differs (get query "crop") (get r "crop") = false
                      /\ differs (get query "variety") (get r "variety") = false
                      /\ differs (get query "pest") (get r "pest") = false
                      /\ differs (get query "disease") (get r "disease") = false).
  { rewrite !differs_agrees. unfold exact_keys. split.
    - intros Hall. repeat split; apply Hall; simpl; tauto.
    - intros (? & ? & ? & ? & ? & ? & ? & ?) k Hk. simpl in Hk.
      repeat (destruct Hk as [<-|Hk]; [assumption|]). destruct Hk. }
  rewrite Hkeys. unfold keeps.
  destruct (differs (get query "year") (get r "year")); [intuition discriminate|].
  destruct (week_rejects _ _ r); [intuition discriminate|].
  destruct (differs (get query "farm") (get r "farm")); [intuition discriminate|].
  destruct (differs (get query "greenhouse") (get r "greenhouse"));
    [intuition discriminate|].
  destruct (differs (get query "bed") (get r "bed")); [intuition discriminate|].
  destruct (differs (get query "crop") (get r "crop")); [intuition discriminate|].
  destruct (differs (get query "variety") (get r "variety")); [intuition discriminate|].
  destruct (differs (get query "pest") (get r "pest")); [intuition discriminate|].
  destruct (differs (get query "disease") (get r "disease")); [intuition discriminate|].
  destruct (beyond num_lt _ (pMin _)); [intuition discriminate|].
  destruct (beyond num_gt _ (pMax _)); [intuition discriminate|].
  destruct (beyond num_lt _ (dMin _)); [intuition discriminate|].
  destruct (beyond num_gt _ (dMax _)); [intuition discriminate|].
  intuition reflexivity.
Qed.

End SearchContents.

Section SearchContentsExamples.
#[local] Existing Instance SampleHost.host.

Lemma search_without_filters_witness :
  (forall k, In k (exact_keys ++ bound_keys) -> blank (get blank_query k))
  /\ Permutation (FarmReport.filterFarmRows blank_query reports) reports.
Proof.
  assert (Hb : forall k, In k (exact_keys ++ bound_keys) -> blank (get blank_query k)).
  { intros k Hk. simpl in Hk.
    repeat (destruct Hk as [<-|Hk]; [first [left; reflexivity|right; reflexivity]|]).
    destruct Hk. }
  exact (conj Hb (search_without_filters blank_query reports Hb)).
Defined.

End SearchContentsExamples.

(** ** Sorting by a key *)

Section SortByKey.
Context {A : Type} (key : A -> Z) (cmp : A -> A -> number) (P : A -> Prop).
Hypothesis cmp_key :
  forall a b, P a -> P b -> is_positive (cmp a b) = Z.ltb (key b) (key a).

Lemma insert_sorted_key (x : A) (l : list A) :
  P x -> List.Forall P l ->
  StronglySorted (fun a b => key a <= key b) l ->
  StronglySorted (fun a b => key a <= key b) (insert_sorted cmp x l).
Proof.
  intros Hx Hl Hs. induction Hs as [|y l Hs IH Hy]; simpl.
  - repeat constructor.
  - inversion Hl as [|? ? Hpy Hpl]; subst. rewrite (cmp_key x y Hx Hpy).
    destruct (Z.ltb_spec (key y) (key x)) as [Hlt|Hge].
    + constructor; [apply IH; exact Hpl|].
      apply (Permutation_Forall (x := x :: l)).
      * symmetry. apply insert_sorted_perm.
      * constructor; [lia|exact Hy].
    + constructor; [constructor; assumption|].
      constructor; [exact Hge|].
      eapply List.Forall_impl; [|exact Hy]. intros z Hz. simpl in Hz. lia.
Qed.

Lemma arr_sort_key (l : list A) :
  List.Forall P l -> StronglySorted (fun a b => key a <= key b) (arr_sort cmp l).
Proof.
  induction l as [|x l IH]; intros Hl; simpl; [constructor|].
  inversion Hl; subst. apply insert_sorted_key; [assumption| |auto].
  apply (Permutation_Forall (x := l)); [symmetry; apply arr_sort_perm|assumption].
Qed.

Lemma insert_sorted_keyed (w : Z) (x : A) (l : list A) :
  P x -> List.Forall P l ->
  keyed key w (insert_sorted cmp x l) = keyed key w (x :: l).
Proof.
  intros Hx Hl. induction l as [|y l IH]; [reflexivity|].
  inversion Hl as [|? ? Hpy Hpl]; subst. simpl insert_sorted.
  rewrite (cmp_key x y Hx Hpy).
  destruct (Z.ltb_spec (key y) (key x)) as [Hlt|Hge]; [|reflexivity].
  unfold keyed in *. simpl in *. rewrite (IH Hpl).
  destruct (Z.eqb_spec (key x) w) as [Hxw|Hxw]; [|reflexivity].
  destruct (Z.eqb_spec (key y) w) as [Hyw|Hyw]; [lia|reflexivity].
Qed.

(** The sort is stable: rows with one key keep their order. *)
Lemma arr_sort_keyed (w : Z) (l : list A) :
  List.Forall P l -> keyed key w (arr_sort cmp l) = keyed key w l.
Proof.
  induction l as [|x l IH]; intros Hl; [reflexivity|].
  inversion Hl as [|? ? Hx Hrest]; subst. simpl arr_sort.
  rewrite insert_sorted_keyed; [|exact Hx|].
  - unfold keyed in *. simpl. rewrite (IH Hrest). reflexivity.
  - apply (Permutation_Forall (x := l)); [symmetry; apply arr_sort_perm|exact Hrest].
Qed.

End SortByKey.

(** ** Charts and the start-up pass over the farm reports *)

Section Charts.
Context `{!Host}.
Import FarmReport FarmCharts.

Lemma by_week_key (a b : object) :
  is_positive (by_week a b) = Z.ltb (week_key b) (week_key a).
Proof.
  unfold by_week, week_key, week_start, is_positive.
  destruct (fst (parseWeekRange (get a "weekRange"))),
           (fst (parseWeekRange (get b "weekRange"))); simpl;
    apply Bool.eq_true_iff_eq; rewrite !Z.ltb_lt; lia.
Qed.

Lemma Forall_True {B} (l : list B) : List.Forall (fun _ => True) l.
Proof. induction l; constructor; auto. Qed.

(** X5: the chart series holds the rows that pass the year, farm,
    greenhouse, pest and disease filters and no other filter of the request;
    it is ordered by the week a range starts at, ascending, a range that does
    not parse counting as week 0; and the rows of one week stay in the order
    of the search, newest first. *)
Theorem charts_by_week (query : object) (rows : list object) :
  let series := charts query rows in
  let found := filterFarmRows (chart_query query) rows in
  Permutation series found
  /\ (forall (i j : nat) (a b : object),
        series !! i = Some a -> series !! j = Some b -> (i < j)%nat ->
        week_key a <= week_key b)
  /\ (forall w : Z, keyed week_key w series = keyed week_key w found)
  /\ (forall query' : object,
        (forall k, In k chart_keys -> get query' k = get query k) ->
        charts query' rows = series).
Proof.
  intros series found. split; [apply arr_sort_perm|]. split; [|split].
  - apply (StronglySorted_lookup (fun a b => week_key a <= week_key b)).
    apply (arr_sort_key week_key by_week (fun _ => True)).
    + intros a b _ _. apply by_week_key.
    + apply Forall_True.
  - intros w. apply (arr_sort_keyed week_key by_week (fun _ => True)).
    + intros a b _ _. apply by_week_key.
    + apply Forall_True.
  - intros query' Hsame. unfold series, charts, chart_query.
    rewrite !Hsame by (simpl; tauto). reflexivity.
Qed.

Lemma stamp_from_spec (clock : nat -> string) (rows : list object) :
  forall k0 : nat,
    length (snd (stamp_from clock k0 rows)) = length rows
    /\ (forall (k : nat) (r : object),
          rows !! k = Some r ->
          snd (stamp_from clock k0 rows) !! k
          = Some (if truthy (get r "createdAt") then r
                  else set_field "createdAt" (VStr (clock (k0 + k)%nat)) r))
    /\ (fst (stamp_from clock k0 rows) = true
        <-> exists r, In r rows /\ truthy (get r "createdAt") = false).
Proof.
  induction rows as [|r rows IH]; intros k0; simpl.
  - split; [reflexivity|]. split; [intros k r Hk; rewrite lookup_nil in Hk; discriminate|].
    split; [discriminate|intros (r & [] & _)].
  - destruct (IH (S k0)) as (Hlen & Hrows & Hflag).
    destruct (stamp_from clock (S k0) rows) as [changed rest] eqn:Hrest. simpl in *.
    destruct (truthy (get r "createdAt")) eqn:Hr; simpl.
    + split; [rewrite Hlen; reflexivity|]. split.
      * intros [|k] r' Hk; simpl in *.
        { injection Hk as <-. rewrite Hr. reflexivity. }
        { rewrite (Hrows k r' Hk). replace (k0 + S k)%nat with (S (k0 + k)) by lia.
          reflexivity. }
      * rewrite Hflag. split.
        { intros (x & Hx & Hxf). exists x. split; [right; exact Hx|exact Hxf]. }
        { intros (x & [<-|Hx] & Hxf); [congruence|]. exists x. split; assumption. }
    + split; [rewrite Hlen; reflexivity|]. split.
      * intros [|k] r' Hk; simpl in *.
        { injection Hk as <-. rewrite Hr. replace (k0 + 0)%nat with k0 by lia.
          reflexivity. }
        { rewrite (Hrows k r' Hk). replace (k0 + S k)%nat with (S (k0 + k)) by lia.
          reflexivity. }
      * split; [|reflexivity]. intros _. exists r. split; [left; reflexivity|exact Hr].
Qed.

(** The file after the pass is what the loop leaves, written or not. *)
Lemma after_startup_stamped (clock : nat -> string) (rows : list object) :
  after_startup clock rows = snd (stamp_from clock 0 rows).
Proof.
  unfold after_startup, ensureCreatedAtForFarmReport.
  destruct (stamp_from_spec clock rows 0) as (Hlen & Hrows & Hflag).
  destruct (stamp_from clock 0 rows) as [changed stamped]. simpl in *.
  destruct changed; [reflexivity|].
  apply list_eq. intros k. destruct (rows !! k) as [r|] eqn:Hk.
  - rewrite (Hrows k r Hk). destruct (truthy (get r "createdAt")) eqn:Hr; [reflexivity|].
    exfalso. assert (Hc : false = true); [|discriminate Hc].
    apply Hflag. exists r. split; [|exact Hr].
    apply list_elem_of_In, list_elem_of_lookup. exists k. exact Hk.
  - symmetry. apply lookup_ge_None. rewrite Hlen. apply lookup_ge_None. exact Hk.
Qed.

(** X6: the start-up pass keeps the number and the order of the rows; a row
    that has a creation time stays as it is; a row that has none gets the
    time of the clock when the loop reaches it, its other fields unchanged;
    and the file is written iff some row had none. *)
Theorem startup_stamps_missing_times (clock : nat -> string) (rows : list object) :
  let '(changed, stamped) := ensureCreatedAtForFarmReport clock rows in
  length stamped = length rows
  /\ (forall (k : nat) (r : object),
        rows !! k = Some r -> truthy (get r "createdAt") = true ->
        stamped !! k = Some r)
  /\ (forall (k : nat) (r : object),
        rows !! k = Some r -> truthy (get r "createdAt") = false ->
        exists r' : object,
          stamped !! k = Some r'
          /\ get r' "createdAt" = VStr (clock k)
          /\ forall f, f <> "createdAt" -> get r' f = get r f)
  /\ (changed = true <-> exists r, In r rows /\ truthy (get r "createdAt") = false)
  /\ after_startup clock rows = stamped.
Proof.
  pose proof (after_startup_stamped clock rows) as Hafter. revert Hafter.
  unfold ensureCreatedAtForFarmReport.
  destruct (stamp_from_spec clock rows 0) as (Hlen & Hrows & Hflag).
  destruct (stamp_from clock 0 rows) as [changed stamped]. simpl in *. intros Hafter.
  split; [exact Hlen|]. split; [|split; [|split; [exact Hflag|exact Hafter]]].
  - intros k r Hk Hr. rewrite (Hrows k r Hk), Hr. reflexivity.
  - intros k r Hk Hr. rewrite (Hrows k r Hk), Hr. eexists. split; [reflexivity|].
    split; [exact (get_set_field_eq "createdAt" (VStr (clock k)) r)|].
    intros f Hf. apply (get_set_field_ne "createdAt" f (VStr (clock k)) r). congruence.
Qed.

(** X7: after the start-up pass every row has a creation time, so a second
    pass finds nothing to do and does not write the file.  (The clock gives
    ISO time stamps, which are not empty.) *)
Theorem startup_is_idempotent (clock clock' : nat -> string) (rows : list object) :
  (forall k, clock k <> "") ->
  List.Forall (fun r => truthy (get r "createdAt") = true) (after_startup clock rows)
  /\ ensureCreatedAtForFarmReport clock' (after_startup clock rows)
     = (false, after_startup clock rows).
Proof.
  intros Hclock. rewrite !after_startup_stamped.
  destruct (stamp_from_spec clock rows 0) as (Hlen & Hrows & _).
  set (stamped := snd (stamp_from clock 0 rows)) in *.
  assert (Hall : List.Forall (fun r => truthy (get r "createdAt") = true) stamped).
  { rewrite List.Forall_forall. intros r' Hin.
    apply list_elem_of_In, list_elem_of_lookup in Hin as [k Hk].
    destruct (rows !! k) as [r|] eqn:Hr.
    - rewrite (Hrows k r Hr) in Hk. injection Hk as <-.
      destruct (truthy (get r "createdAt")) eqn:Ht; [exact Ht|].
      change (truthy (get (set_field "createdAt" (VStr (clock k)) r) "createdAt") = true).
      rewrite get_set_field_eq. simpl.
      destruct (String.eqb_spec (clock k) "");
        [exfalso; eapply Hclock; eassumption|reflexivity].
    - apply lookup_ge_None in Hr. apply lookup_lt_Some in Hk. lia. }
  split; [exact Hall|].
  unfold ensureCreatedAtForFarmReport.
  destruct (stamp_from_spec clock' stamped 0) as (Hlen2 & Hrows2 & Hflag2).
  destruct (stamp_from clock' 0 stamped) as [changed2 again] eqn:Hagain. simpl in *.
  rewrite List.Forall_forall in Hall.
  assert (changed2 = false) as ->.
  { destruct changed2; [|reflexivity]. destruct (proj1 Hflag2 eq_refl) as (r & Hin & Hf).
    rewrite (Hall r Hin) in Hf. discriminate. }
  f_equal. apply list_eq. intros k. destruct (stamped !! k) as [r|] eqn:Hk.
  - rewrite (Hrows2 k r Hk), (Hall r); [reflexivity|].
    apply list_elem_of_In, list_elem_of_lookup. exists k. exact Hk.
  - apply lookup_ge_None. rewrite Hlen2. apply lookup_ge_None. exact Hk.
Qed.

End Charts.

Section ChartsExamples.
#[local] Existing Instance SampleHost.host.

Lemma startup_is_idempotent_witness :
  (forall k, noon k <> "")
  /\ List.Forall (fun r => truthy (get r "createdAt") = true)
       (FarmCharts.after_startup noon reports)
  /\ FarmCharts.ensureCreatedAtForFarmReport noon (FarmCharts.after_startup noon reports)
     = (false, FarmCharts.after_startup noon reports).
Proof.
  assert (Hc : forall k, noon k <> "") by (intros k; discriminate).
  exact (conj Hc (startup_is_idempotent noon noon reports Hc)).
Defined.

End ChartsExamples.

(** ** The session gate, registration and login *)

Section GateProperties.
Context `{!Host}.
Import Gate.

Lemma rank_cases (role : value) (n : nat) :
  rank role = Some n ->
  (role = Viewer /\ n = 0%nat) \/ (role = Supervisor /\ n = 1%nat)
  \/ (role = Agronomist /\ n = 2%nat) \/ (role = GeneralManager /\ n = 3%nat).
Proof.
  unfold rank. repeat case_bool_decide; intros [= <-]; subst; tauto.
Qed.

Lemma rank_None (role : value) :
  rank role = None ->
  role <> Viewer /\ role <> Supervisor /\ role <> Agronomist /\ role <> GeneralManager.
Proof. unfold rank. repeat case_bool_decide; intros; try discriminate; tauto. Qed.

(** X8: on every gated route a request without a session is turned away, and
    so is a session whose role is none of the four; among the four roles a
    route that admits one admits every role above it in the order Viewer,
    Supervisor, Agronomist, GeneralManager. *)
Theorem gate_follows_rank (r : route) :
  In r routes ->
  gate r None <> Next
  /\ (forall u : object, rank (get u "role") = None -> gate r (Some u) <> Next)
  /\ (forall (u1 u2 : object) (n1 n2 : nat),
        rank (get u1 "role") = Some n1 -> rank (get u2 "role") = Some n2 ->
        (n1 <= n2)%nat ->
        gate r (Some u1) = Next -> gate r (Some u2) = Next).
Proof.
  intros Hin.
  assert (Hgate : forall u, gate r (Some u) = Next
                            <-> includes (allowed r) (get u "role") = true).
  { intros u. unfold gate, requireAnyRolePage, requireAnyRoleApi.
    destruct (page r), (includes (allowed r) (get u "role")); simpl;
      split; congruence. }
  split; [|split].
  - unfold gate. destruct (page r); discriminate.
  - intros u Hrank. rewrite Hgate. apply rank_None in Hrank as (Hv & Hs & Ha & Hg).
    revert Hv Hs Ha Hg. generalize (get u "role"). intros role Hv Hs Ha Hg Hel.
    apply bool_decide_eq_true in Hel. unfold routes in Hin.
    repeat (destruct Hin as [<-|Hin];
            [cbn [allowed] in Hel;
             repeat (apply elem_of_cons in Hel as [Hel|Hel]; [congruence|]);
             inversion Hel|]).
    destruct Hin.
  - intros u1 u2 n1 n2 H1 H2 Hle. rewrite !Hgate.
    revert H1 H2. generalize (get u1 "role") (get u2 "role"). intros role1 role2 H1 H2.
    apply rank_cases in H1, H2. unfold routes in Hin.
    destruct H1 as [[-> ->]|[[-> ->]|[[-> ->]|[-> ->]]]];
      destruct H2 as [[-> ->]|[[-> ->]|[[-> ->]|[-> ->]]]];
      try lia;
      repeat (destruct Hin as [<-|Hin];
              [vm_compute; intros Hp; first [reflexivity|discriminate Hp]|]);
      destruct Hin.
Qed.

Lemma arr_find_None {A} (p : A -> bool) (l : list A) :
  arr_find p l = None <-> forall x, In x l -> p x = false.
Proof.
  induction l as [|y l IH]; simpl.
  - split; [intros _ x []|reflexivity].
  - destruct (p y) eqn:Hy.
    + split; [discriminate|]. intros Hall.
      rewrite (Hall y (or_introl eq_refl)) in Hy. discriminate.
    + rewrite IH. split.
      * intros Hall x [<-|Hx]; [exact Hy|apply Hall, Hx].
      * intros Hall x Hx. apply Hall. right. exact Hx.
Qed.

Lemma arr_find_app_None {A} (p : A -> bool) (l l' : list A) :
  arr_find p l = None -> arr_find p (l ++ l') = arr_find p l'.
Proof.
  induction l as [|y l IH]; simpl; [reflexivity|].
  destruct (p y); [discriminate|exact IH].
Qed.

Lemma strict_eq_refl (v : value) : truthy v = true -> strict_eq v v = true.
Proof.
  unfold strict_eq. destruct v as [| | |[|z]|s]; try discriminate;
    intros _; apply bool_decide_eq_true; reflexivity.
Qed.

Lemma strict_eq_sym (a b : value) : strict_eq a b = strict_eq b a.
Proof.
  destruct (strict_eq a b) eqn:Hab.
  - pose proof (strict_eq_true a b Hab) as <-. symmetry. exact Hab.
  - destruct (strict_eq b a) eqn:Hba; [|reflexivity].
    pose proof (strict_eq_true b a Hba) as <-. congruence.
Qed.

(** What [register] does when it succeeds. *)
Lemma register_success (body : object) (now : string) (users payroll : list object) :
  get (json (fst (Auth.register body now users payroll))) "success" = VBool true ->
  truthy (get body "username") = true
  /\ truthy (get body "password") = true
  /\ Auth.user_named users (get body "username") = None
  /\ exists user : object,
       snd (Auth.register body now users payroll) = users ++ [user]
       /\ get user "username" = get body "username"
       /\ get user "password" = get body "password"
       /\ get user "role" = get body "role".
Proof.
  unfold Auth.register.
  destruct (truthy (get body "username")); simpl; [|discriminate].
  destruct (truthy (get body "password")); simpl; [|discriminate].
  destruct (truthy (get body "role")); simpl; [|discriminate].
  destruct (truthy (get body "payrollNumber")); simpl; [|discriminate].
  destruct (includes Auth.ROLES (get body "role")); simpl; [|discriminate].
  case_bool_decide as Huser; simpl; [discriminate|].
  destruct (Auth.role_rejected _ _); simpl; [discriminate|].
  intros _. split; [reflexivity|]. split; [reflexivity|]. split.
  - destruct (Auth.user_named users (get body "username")) eqn:Hu; [|reflexivity].
    exfalso. apply Huser. eexists. reflexivity.
  - eexists. split; [reflexivity|]. rewrite !get_obj. repeat split.
Qed.

(** X9: once a registration has succeeded, logging in with the same user
    name and password succeeds, and the session holds that user name and the
    role that was registered. *)
Theorem register_then_login
    (body : object) (now : string) (users payroll : list object)
    (body' : object) (s : session) :
  get (json (fst (Auth.register body now users payroll))) "success" = VBool true ->
  get body' "username" = get body "username" ->
  get body' "password" = get body "password" ->
  login body' (snd (Auth.register body now users payroll)) s
  = (ok [("role", get body "role"); ("username", get body "username")],
     Some (obj [("username", get body "username"); ("role", get body "role")])).
Proof.
  intros Hok Hname Hpass.
  destruct (register_success body now users payroll Hok)
    as (Htn & Htp & Hfree & user & -> & Hun & Hup & Hur).
  unfold login. rewrite Hname, Hpass.
  rewrite arr_find_app_None.
  - simpl. rewrite Hun, Hup, (strict_eq_refl _ Htn), (strict_eq_refl _ Htp). simpl.
    rewrite Hun, Hur. reflexivity.
  - apply arr_find_None. intros u Hu.
    unfold Auth.user_named in Hfree. rewrite arr_find_None in Hfree.
    rewrite (Hfree u Hu). reflexivity.
Qed.

(** X10: [register] leaves every stored user as it is and adds at most one;
    if no two stored users have the same user name, this is still so
    afterwards. *)
Theorem register_keeps_names_distinct
    (body : object) (now : string) (users payroll : list object) :
  (exists new : list object,
      snd (Auth.register body now users payroll) = users ++ new
      /\ (length new <= 1)%nat)
  /\ (distinct_by username users ->
      distinct_by username (snd (Auth.register body now users payroll))).
Proof.
  destruct (get (json (fst (Auth.register body now users payroll))) "success")
    eqn:Hs; try destruct b;
    try (assert (Hsame : snd (Auth.register body now users payroll) = users);
         [revert Hs; unfold Auth.register;
          repeat (match goal with |- context [if ?c then _ else _] =>
                    destruct c; simpl; try reflexivity end);
          rewrite ?get_obj; simpl; discriminate|];
         rewrite Hsame; split; [exists []; rewrite app_nil_r; split; [reflexivity|simpl; lia]|
                                intros Hd; exact Hd]).
  destruct (register_success body now users payroll Hs)
    as (Htn & _ & Hfree & user & -> & Hun & _ & _).
  split; [exists [user]; split; [reflexivity|simpl; lia]|].
  intros Hd i j a b Hi Hj Hij.
  unfold Auth.user_named in Hfree. rewrite arr_find_None in Hfree.
  assert (Hold : forall k x, (users ++ [user]) !! k = Some x ->
                   (k < length users)%nat -> users !! k = Some x /\ In x users).
  { intros k x Hk Hlt. rewrite lookup_app_l in Hk by exact Hlt. split; [exact Hk|].
    apply list_elem_of_In, list_elem_of_lookup. exists k. exact Hk. }
  assert (Hnew : forall k x, (users ++ [user]) !! k = Some x ->
                   (length users <= k)%nat -> k = length users /\ x = user).
  { intros k x Hk Hge. rewrite lookup_app_r in Hk by exact Hge.
    destruct (k - length users)%nat as [|n] eqn:Hn; simpl in Hk; [|destruct n; discriminate].
    injection Hk as <-. split; [lia|reflexivity]. }
  unfold username.
  destruct (le_lt_dec (length users) i) as [Hi'|Hi'],
           (le_lt_dec (length users) j) as [Hj'|Hj'].
  - destruct (Hnew i a Hi Hi'), (Hnew j b Hj Hj'). lia.
  - destruct (Hnew i a Hi Hi') as [_ ->]. destruct (Hold j b Hj Hj') as [_ Hb].
    rewrite strict_eq_sym, Hun. apply Hfree, Hb.
  - destruct (Hnew j b Hj Hj') as [_ ->]. destruct (Hold i a Hi Hi') as [_ Ha].
    rewrite Hun. apply Hfree, Ha.
  - destruct (Hold i a Hi Hi') as [Ha _]. destruct (Hold j b Hj Hj') as [Hb _].
    apply (Hd i j a b Ha Hb Hij).
Qed.

End GateProperties.

Section GateExamples.
#[local] Existing Instance SampleHost.host.

Lemma gate_follows_rank_witness :
  In save_route Gate.routes
  /\ Gate.gate save_route None <> Gate.Next
  /\ (forall u : object,
        rank (get u "role") = None -> Gate.gate save_route (Some u) <> Gate.Next)
  /\ (forall (u1 u2 : object) (n1 n2 : nat),
        rank (get u1 "role") = Some n1 -> rank (get u2 "role") = Some n2 ->
        (n1 <= n2)%nat ->
        Gate.gate save_route (Some u1) = Gate.Next ->
        Gate.gate save_route (Some u2) = Gate.Next).
Proof.
  assert (Hr : In save_route Gate.routes) by (simpl; tauto).
  exact (conj Hr (gate_follows_rank save_route Hr)).
Defined.

Lemma register_then_login_witness :
  get (json (fst (Auth.register newcomer "2024-03-02T08:00:00.000Z"
                    user_list payroll_table))) "success" = VBool true
  /\ Gate.login (obj [("username", VStr "baraka"); ("password", VStr "secret")])
       (snd (Auth.register newcomer "2024-03-02T08:00:00.000Z" user_list payroll_table))
       None
     = (ok [("role", VStr "Viewer"); ("username", VStr "baraka")],
        Some (obj [("username", VStr "baraka"); ("role", VStr "Viewer")])).
Proof.
  split; [reflexivity|].
  apply (register_then_login newcomer "2024-03-02T08:00:00.000Z" user_list payroll_table
           (obj [("username", VStr "baraka"); ("password", VStr "secret")]) None);
    reflexivity.
Defined.

End GateExamples.

(** ** [POST /agro/save]: what it keeps and what it adds *)

Section SaveProperties.
Context `{!Host}.
Import Agro.



Lemma ensure_id_field (rows : list object) (row : object) (f : string) :
  f <> "id" -> get (ensure_id rows row) f = get row f.
Proof.
  intros Hf. unfold ensure_id. destruct (truthy (get row "id")); [reflexivity|].
  apply get_set_field_ne. congruence.
Qed.

Lemma save_row_cases (st : save_state) (row0 : object) :
  save_row st row0 = SaveState (existingRows st) (added st) (S (duplicates st))
  \/ save_row st row0
     = SaveState (existingRows st ++ [ensure_id (existingRows st) row0])
         (S (added st)) (duplicates st).
Proof. unfold save_row. destruct (existsb _ _); [left|right]; reflexivity. Qed.


(** X11: [save] leaves every stored row as it is, in its place; what it
    adds comes after them, and is a row of the batch, with an identifier
    filled in when the row had none. *)
Theorem save_keeps_stored_rows (rows newRows : list object) :
  exists appended : list object,
    existingRows (save_rows rows newRows) = rows ++ appended
    /\ length appended = added (save_rows rows newRows)
    /\ forall x, In x appended ->
         exists row, In row newRows
           /\ (forall f, f <> "id" -> get x f = get row f)
           /\ (truthy (get row "id") = true -> x = row).
Proof.
  unfold save_rows.
  assert (Hgen : forall st : save_state,
    exists appended : list object,
      existingRows (fold_left save_row newRows st) = existingRows st ++ appended
      /\ (length appended + added st)%nat = added (fold_left save_row newRows st)
      /\ forall x, In x appended ->
           exists row, In row newRows
             /\ (forall f, f <> "id" -> get x f = get row f)
             /\ (truthy (get row "id") = true -> x = row)).
  { induction newRows as [|row0 newRows IH]; intros st; simpl.
    - exists []. rewrite app_nil_r. split; [reflexivity|]. split; [reflexivity|].
      intros x [].
    - destruct (IH (save_row st row0)) as (app & Hrows & Hlen & Hfrom).
      assert (Hlift : forall x, In x app ->
                exists row, (row0 = row \/ In row newRows)
                  /\ (forall f, f <> "id" -> get x f = get row f)
                  /\ (truthy (get row "id") = true -> x = row)).
      { intros x Hx. destruct (Hfrom x Hx) as (row & Hin & Hrest).
        exists row. split; [right; exact Hin|exact Hrest]. }
      destruct (save_row_cases st row0) as [Hst|Hst]; rewrite Hst in Hrows, Hlen;
        simpl in Hrows, Hlen; rewrite Hst.
      + exists app. split; [exact Hrows|]. split; [exact Hlen|exact Hlift].
      + exists (ensure_id (existingRows st) row0 :: app).
        split; [rewrite Hrows, <- app_assoc; reflexivity|].
        split; [simpl; lia|].
        intros x [<-|Hx]; [|apply Hlift, Hx].
        exists row0. split; [left; reflexivity|]. split.
        * intros f Hf. apply ensure_id_field, Hf.
        * intros Ht. unfold ensure_id. rewrite Ht. reflexivity. }
  destruct (Hgen (SaveState rows 0 0)) as (app & Hrows & Hlen & Hfrom).
  exists app. simpl in *. split; [exact Hrows|]. split; [lia|exact Hfrom].
Qed.












End SaveProperties.

Section SaveTwiceExamples.
#[local] Existing Instance SampleHost.host.



End SaveTwiceExamples.

(** ** [POST /agro/bulk_set] and [POST /agro/import]: rows and identifiers *)

Section Upserts.
Context `{!Host}.
Import Agro.

Lemma lookup_set_field (k k' : string) (v : value) (r : object) :
  set_field k v r !! k'
  = if decide (k = k')
    then match v with VUndef => None | _ => Some v end
    else r !! k'.
Proof.
  unfold set_field. destruct (decide (k = k')) as [->|Hne].
  - destruct v; rewrite ?lookup_delete_eq, ?lookup_insert_eq; reflexivity.
  - destruct v; rewrite ?lookup_delete_ne, ?lookup_insert_ne by exact Hne; reflexivity.
Qed.

Lemma lookup_spread (a b : object) (k : string) :
  spread a b !! k = match b !! k with Some v => Some v | None => a !! k end.
Proof.
  unfold spread. destruct (b !! k) as [v|] eqn:Hb.
  - apply lookup_union_Some_l. exact Hb.
  - apply lookup_union_r. exact Hb.
Qed.

(** Merging a row a second time changes nothing. *)
Lemma merge_row_twice (old row : object) :
  merge_row (merge_row old row) row = merge_row old row.
Proof.
  apply map_eq. intros k. unfold merge_row at 1 3.
  rewrite !lookup_set_field. destruct (decide ("supervisorRemarks" = k)) as [<-|Hne].
  - assert (Hv : coalesce (get row "supervisorRemarks")
                   (coalesce (get (merge_row old row) "supervisorRemarks") (VStr ""))
                 = coalesce (get row "supervisorRemarks")
                     (coalesce (get old "supervisorRemarks") (VStr ""))).
    { unfold merge_row. rewrite get_set_field_eq. unfold coalesce.
      destruct (nullish (get row "supervisorRemarks")); [|reflexivity].
      destruct (nullish (get old "supervisorRemarks")) eqn:Ho; [reflexivity|].
      rewrite Ho. reflexivity. }
    rewrite Hv. reflexivity.
  - rewrite !lookup_spread. destruct (row !! k) eqn:Hrk; [reflexivity|].
    unfold merge_row. rewrite lookup_set_field.
    destruct (decide ("supervisorRemarks" = k)); [contradiction|].
    rewrite lookup_spread, Hrk. reflexivity.
Qed.

Lemma get_Some (r : object) (k : string) (v : value) :
  get r k = v -> v <> VUndef -> r !! k = Some v.
Proof.
  unfold get. destruct (r !! k) as [w|]; simpl; intros <- Hv; [reflexivity|].
  contradiction.
Qed.

(** Merging a row into the row that [bulk_set] pushed for it changes
    nothing. *)
Lemma merge_row_pushed (row : object) :
  remark_ok row -> merge_row (default_remarks row) row = default_remarks row.
Proof.
  intros Hok. apply map_eq. intros k. unfold merge_row.
  rewrite lookup_set_field. destruct (decide ("supervisorRemarks" = k)) as [<-|Hne].
  - unfold default_remarks.
    destruct (truthy (get row "supervisorRemarks")) eqn:Ht; cbn [negb].
    + unfold coalesce.
      assert (Hn : nullish (get row "supervisorRemarks") = false).
      { destruct (get row "supervisorRemarks"); try discriminate Ht; reflexivity. }
      rewrite Hn.
      assert (Hu : get row "supervisorRemarks" <> VUndef).
      { intros Hu. rewrite Hu in Ht. discriminate. }
      rewrite (get_Some row _ _ eq_refl Hu).
      destruct (get row "supervisorRemarks"); try reflexivity. contradiction.
    + rewrite get_set_field_eq, lookup_set_field.
      destruct (decide ("supervisorRemarks" = "supervisorRemarks")); [|contradiction].
      unfold coalesce. destruct Hok as [Hn|[s Hs]].
      * rewrite Hn. reflexivity.
      * rewrite Hs in *. simpl in Ht. destruct s; [reflexivity|discriminate Ht].
  - rewrite lookup_spread. destruct (row !! k) eqn:Hrk.
    + unfold default_remarks. destruct (truthy _); cbn [negb]; [symmetry; exact Hrk|].
      rewrite lookup_set_field. destruct (decide _); [contradiction|]. symmetry. exact Hrk.
    + reflexivity.
Qed.

(** The two ways a step of the [bulk_set] loop can go. *)
Lemma bulk_row_cases (st : bulk_state) (row0 : object) :
  let m := fst (assign_id (maxId st) row0) in
  let row := snd (assign_id (maxId st) row0) in
  let p := fun r : object => strict_eq (get r "id") (get row "id") in
  (exists (idx : nat) (old : object),
      first_at p (merged st) idx old
      /\ bulk_row st row0 = BulkState m (<[idx := merge_row old row]> (merged st))
      /\ get (merge_row old row) "id" = get old "id")
  \/ ((forall r, In r (merged st) -> p r = false)
      /\ bulk_row st row0 = BulkState m (merged st ++ [default_remarks row])
      /\ get (default_remarks row) "id" = get row "id").
Proof.
  intros m row p. unfold bulk_row. subst m row.
  destruct (assign_id (maxId st) row0) as [m row]. cbn [fst snd] in *.
  destruct (findIndex (fun r : object => strict_eq (get r "id") (get row "id")) (merged st))
    as [idx|] eqn:Hfind.
  - left. pose proof Hfind as Hf. apply findIndex_Some in Hf as (old & Hfirst).
    exists idx, old. split; [exact Hfirst|]. destruct Hfirst as (Hold & Hmatch & _).
    rewrite Hold. split; [reflexivity|].
    apply merge_row_id. symmetry. apply strict_eq_true, Hmatch.
  - right. split; [apply findIndex_None, Hfind|]. split; [reflexivity|].
    unfold default_remarks. destruct (truthy _); cbn [negb]; [reflexivity|].
    apply get_set_field_ne. discriminate.
Qed.




(** X14: [bulk_set] does not replace the file: every stored row is still
    there afterwards, in its place and with its identifier, and the set has
    grown by at most one row for each row of the batch. *)
Theorem bulk_set_keeps_stored_rows (existing newData : list object) :
  let result := snd (bulk_set (Some newData) existing) in
  (length existing <= length result <= length existing + length newData)%nat
  /\ forall (k : nat) (r : object),
       existing !! k = Some r ->
       exists r' : object, result !! k = Some r' /\ get r' "id" = get r "id".
Proof.
  simpl. unfold bulk_rows.
  assert (Hgen : forall st : bulk_state,
    (length (merged st) <= length (merged (fold_left bulk_row newData st))
     <= length (merged st) + length newData)%nat
    /\ forall (k : nat) (r : object),
         merged st !! k = Some r ->
         exists r' : object,
           merged (fold_left bulk_row newData st) !! k = Some r'
           /\ get r' "id" = get r "id").
  { induction newData as [|row0 newData IH]; intros st; simpl.
    - split; [lia|]. intros k r Hk. exists r. split; [exact Hk|reflexivity].
    - destruct (IH (bulk_row st row0)) as [Hlen Hrows].
      destruct (bulk_row_cases st row0)
        as [(idx & old & (Hold & _ & _) & Hst & Hid)|(_ & Hst & _)];
        rewrite Hst in Hlen, Hrows |- *; cbn [merged] in Hlen, Hrows.
      + rewrite length_insert in Hlen. split; [lia|]. intros k r Hk.
        destruct (decide (idx = k)) as [->|Hne].
        * assert (r = old) by congruence. subst r.
          destruct (Hrows k (merge_row old (snd (assign_id (maxId st) row0))))
            as (r' & Hr' & Hid').
          { apply list_lookup_insert_eq. eapply lookup_lt_Some. exact Hk. }
          exists r'. split; [exact Hr'|congruence].
        * apply Hrows. rewrite list_lookup_insert_ne by exact Hne. exact Hk.
      + rewrite length_app in Hlen. simpl in Hlen. split; [lia|]. intros k r Hk.
        apply Hrows. rewrite lookup_app_l by (eapply lookup_lt_Some; exact Hk). exact Hk. }
  apply (Hgen (BulkState (max_id existing) existing)).
Qed.



Lemma assign_id_truthy (m : number) (row : object) :
  truthy (get row "id") = true -> assign_id m row = (m, row).
Proof. intros Ht. unfold assign_id. rewrite Ht. reflexivity. Qed.

(** After its own step a row is absorbed. *)
Lemma bulk_row_absorbs (st : bulk_state) (row : object) :
  truthy (get row "id") = true -> remark_ok row ->
  absorbed (merged (bulk_row st row)) row.
Proof.
  intros Ht Hok. pose proof (bulk_row_cases st row) as Hcases.
  rewrite (assign_id_truthy _ row Ht) in Hcases. cbn [fst snd] in Hcases.
  destruct Hcases as [(idx & old & (Hold & Hmatch & Hmin) & -> & Hid)|(Hnone & -> & Hid)];
    cbn [merged].
  - exists idx, (merge_row old row). split; [|apply merge_row_twice].
    split; [apply list_lookup_insert_eq; eapply lookup_lt_Some; exact Hold|].
    split; [rewrite Hid; exact Hmatch|].
    intros j y Hj Hy. rewrite list_lookup_insert_ne in Hy by lia.
    apply (Hmin j y Hj Hy).
  - exists (length (merged st)), (default_remarks row).
    split; [|apply merge_row_pushed, Hok].
    split; [rewrite lookup_app_r by lia; rewrite Nat.sub_diag; reflexivity|].
    split; [rewrite Hid; apply strict_eq_refl, Ht|].
    intros j y Hj Hy. rewrite lookup_app_l in Hy by exact Hj.
    apply Hnone, list_elem_of_In, list_elem_of_lookup. exists j. exact Hy.
Qed.

(** The step of a row with another identifier leaves it absorbed. *)
Lemma bulk_row_keeps_absorbed (st : bulk_state) (row other : object) :
  truthy (get row "id") = true -> truthy (get other "id") = true ->
  strict_eq (get other "id") (get row "id") = false ->
  absorbed (merged st) row -> absorbed (merged (bulk_row st other)) row.
Proof.
  intros Ht Hto Hdiff (idx & old & (Hold & Hmatch & Hmin) & Hsame).
  pose proof (bulk_row_cases st other) as Hcases.
  rewrite (assign_id_truthy _ other Hto) in Hcases. cbn [fst snd] in Hcases.
  destruct Hcases
    as [(i' & old' & (Hold' & Hmatch' & _) & -> & Hid')|(_ & -> & _)]; cbn [merged].
  - assert (Hne : i' <> idx).
    { intros ->. assert (old' = old) by congruence. subst old'.
      apply strict_eq_true in Hmatch, Hmatch'.
      rewrite <- Hmatch', Hmatch, (strict_eq_refl _ Ht) in Hdiff. discriminate. }
    exists idx, old. split; [|exact Hsame].
    split; [rewrite list_lookup_insert_ne by exact Hne; exact Hold|].
    split; [exact Hmatch|]. intros j y Hj Hy.
    destruct (decide (i' = j)) as [->|Hij].
    + rewrite list_lookup_insert_eq in Hy by (eapply lookup_lt_Some; exact Hold').
      injection Hy as <-. rewrite Hid'. apply (Hmin j old' Hj Hold').
    + rewrite list_lookup_insert_ne in Hy by exact Hij. apply (Hmin j y Hj Hy).
  - exists idx, old. split; [|exact Hsame].
    assert (Hlt : (idx < length (merged st))%nat) by (eapply lookup_lt_Some; exact Hold).
    split; [rewrite lookup_app_l by exact Hlt; exact Hold|].
    split; [exact Hmatch|]. intros j y Hj Hy.
    rewrite lookup_app_l in Hy by lia. apply (Hmin j y Hj Hy).
Qed.

Lemma bulk_fold_keeps_absorbed (batch : list object) (row : object) :
  truthy (get row "id") = true ->
  (forall other, In other batch ->
     truthy (get other "id") = true
     /\ strict_eq (get other "id") (get row "id") = false) ->
  forall st : bulk_state,
    absorbed (merged st) row -> absorbed (merged (fold_left bulk_row batch st)) row.
Proof.
  intros Ht. induction batch as [|other batch IH]; intros Hall st Habs; simpl.
  - exact Habs.
  - apply IH; [intros x Hx; apply Hall; right; exact Hx|].
    destruct (Hall other (or_introl eq_refl)) as [Hto Hdiff].
    apply bulk_row_keeps_absorbed; assumption.
Qed.

Lemma identified_tail (row : object) (batch : list object) :
  identified (row :: batch) ->
  identified batch
  /\ forall other, In other batch ->
       strict_eq (get other "id") (get row "id") = false.
Proof.
  intros [Hall Hd]. split; [split|].
  - intros x Hx. apply Hall. right. exact Hx.
  - intros i j a b Hi Hj Hij. apply (Hd (S i) (S j) a b Hi Hj). lia.
  - intros other Hin. apply list_elem_of_In, list_elem_of_lookup in Hin as [k Hk].
    apply (Hd (S k) 0%nat other row Hk eq_refl). lia.
Qed.

Lemma bulk_fold_absorbs (batch : list object) :
  identified batch ->
  forall (st : bulk_state) (row : object),
    In row batch -> absorbed (merged (fold_left bulk_row batch st)) row.
Proof.
  induction batch as [|row0 batch IH]; intros Hid st row Hin; [destruct Hin|].
  destruct (identified_tail row0 batch Hid) as [Htail Hdiff].
  destruct Hid as [Hall _]. simpl. destruct Hin as [<-|Hin].
  - destruct (Hall row0 (or_introl eq_refl)) as [Ht Hok].
    apply bulk_fold_keeps_absorbed; [exact Ht| |apply bulk_row_absorbs; assumption].
    intros other Hother. split; [|apply Hdiff, Hother].
    apply (Hall other). right. exact Hother.
  - apply IH; assumption.
Qed.

Lemma bulk_row_absorbed (st : bulk_state) (row : object) :
  truthy (get row "id") = true -> absorbed (merged st) row ->
  bulk_row st row = st.
Proof.
  intros Ht (idx & old & Hfirst & Hsame). unfold bulk_row.
  rewrite (assign_id_truthy _ row Ht).
  rewrite (proj2 (findIndex_Some _ (merged st) idx) (ex_intro _ old Hfirst)).
  destruct Hfirst as (Hold & _ & _). rewrite Hold, Hsame, list_insert_id by exact Hold.
  destruct st. reflexivity.
Qed.

Lemma bulk_fold_absorbed (batch : list object) (st : bulk_state) :
  (forall row, In row batch ->
     truthy (get row "id") = true /\ absorbed (merged st) row) ->
  fold_left bulk_row batch st = st.
Proof.
  induction batch as [|row batch IH]; intros Hall; simpl; [reflexivity|].
  destruct (Hall row (or_introl eq_refl)) as [Ht Habs].
  rewrite (bulk_row_absorbed st row Ht Habs).
  apply IH. intros x Hx. apply Hall. right. exact Hx.
Qed.

(** X17: sending to [bulk_set] a second time a batch in which every row
    has an identifier of its own, different from those of the other rows,
    and remarks that are absent, [null] or a text, leaves the file as the
    first request made it. *)
Theorem bulk_set_twice (existing newData : list object) :
  identified newData ->
  snd (bulk_set (Some newData) (snd (bulk_set (Some newData) existing)))
  = snd (bulk_set (Some newData) existing).
Proof.
  intros Hid. simpl. unfold bulk_rows at 1.
  rewrite bulk_fold_absorbed; [reflexivity|].
  intros row Hrow. split; [apply (proj1 Hid row Hrow)|]. cbn [merged].
  apply bulk_fold_absorbs; assumption.
Qed.

End Upserts.

Section UpsertExamples.
#[local] Existing Instance SampleHost.host.

Lemma distinct_two (f : object -> value) (a b : object) :
  strict_eq (f a) (f b) = false -> strict_eq (f b) (f a) = false ->
  distinct_by f [a; b].
Proof.
  intros Hab Hba i j x y Hi Hj Hne.
  destruct i as [|[|i]], j as [|[|j]]; simpl in Hi, Hj; try congruence;
    try (rewrite lookup_nil in *; discriminate);
    injection Hi as <-; injection Hj as <-; assumption.
Qed.




Lemma bulk_set_twice_witness :
  identified batch
  /\ snd (Agro.bulk_set (Some batch) (snd (Agro.bulk_set (Some batch) remarked)))
     = snd (Agro.bulk_set (Some batch) remarked).
Proof.
  assert (Hi : identified batch).
  { split; [|apply distinct_two; reflexivity].
    intros row [<-|[<-|[]]]; (split; [reflexivity|]).
    - left. reflexivity.
    - right. eexists. reflexivity. }
  exact (conj Hi (bulk_set_twice remarked batch Hi)).
Defined.

End UpsertExamples.

(** ** The remark of a supervisor, sent twice *)

Section RemarksTwice.
Context `{!Host}.
Import Agro.

Lemma set_field_twice (k : string) (v w : value) (r : object) :
  set_field k v (set_field k w r) = set_field k v r.
Proof.
  apply map_eq. intros k'. rewrite !lookup_set_field.
  destruct (decide (k = k')); reflexivity.
Qed.

(** X18: of two remarks sent for the same identifier the later one stands:
    the file and the answer are what the second request alone would have
    given.  In particular a request sent twice has the effect of one. *)
Theorem supervisor_remarks_last_wins (body1 body2 : object) (rows : list object) :
  get body1 "id" = get body2 "id" ->
  supervisor_remarks body2 (snd (supervisor_remarks body1 rows))
  = supervisor_remarks body2 rows.
Proof.
  intros Hid. unfold supervisor_remarks at 2. rewrite Hid.
  destruct (truthy (get body2 "id")) eqn:Ht; cbn [negb snd]; [|reflexivity].
  destruct (findIndex _ rows) as [idx|] eqn:Hfind; [|reflexivity].
  pose proof Hfind as Hf. apply findIndex_Some in Hf as (r & Hr & Hmatch & Hmin).
  rewrite Hr. cbn [snd]. unfold supervisor_remarks. rewrite Ht. cbn [negb].
  set (r1 := set_field "supervisorRemarks"
               (js_or (get body1 "supervisorRemarks") (VStr "")) r).
  assert (Hfind1 : findIndex (fun x : object =>
                      strict_eq (get x "id") (VNum (ToNumber (get body2 "id"))))
                     (<[idx := r1]> rows) = Some idx).
  { apply findIndex_Some. exists r1. split.
    - apply list_lookup_insert_eq. eapply lookup_lt_Some. exact Hr.
    - split.
      + unfold r1. rewrite get_set_field_ne by discriminate. exact Hmatch.
      + intros j y Hj Hy. rewrite list_lookup_insert_ne in Hy by lia.
        apply (Hmin j y Hj Hy). }
  rewrite Hfind1, Hfind, Hr.
  rewrite list_lookup_insert_eq by (eapply lookup_lt_Some; exact Hr).
  rewrite list_insert_insert_eq. unfold r1. rewrite set_field_twice. reflexivity.
Qed.

End RemarksTwice.

(** ** Reading the agronomy store *)

Section AgroQueries.
Context `{!Host}.
Import AgroQuery.

Lemma filter_throwing_Throws {A} (p : A -> outcome bool) (l : list A) :
  filter_throwing p l = Throws <-> exists x, In x l /\ p x = Throws.
Proof.
  induction l as [|x l IH]; simpl.
  - split; [discriminate|intros (x & [] & _)].
  - destruct (p x) as [keep|] eqn:Hx; simpl.
    + destruct (filter_throwing p l) as [kept|]; simpl.
      * split; [discriminate|]. intros (y & [<-|Hy] & Hp); [congruence|].
        assert (Hn : @Returns (list A) kept = Throws); [|discriminate Hn].
        apply IH. exists y. split; assumption.
      * split; [|reflexivity]. intros _.
        destruct (proj1 IH eq_refl) as (y & Hy & Hp). exists y. split; [right|]; assumption.
    + split; [|reflexivity]. intros _. exists x. split; [left; reflexivity|exact Hx].
Qed.

(** When no call throws, the filter is the plain one. *)
Lemma filter_throwing_Returns {A} (p : A -> outcome bool) (l kept : list A) :
  filter_throwing p l = Returns kept ->
  kept = List.filter (fun x => match p x with Returns true => true | _ => false end) l.
Proof.
  revert kept. induction l as [|x l IH]; intros kept; simpl.
  - intros [= <-]. reflexivity.
  - destruct (p x) as [keep|]; simpl; [|discriminate].
    destruct (filter_throwing p l) as [rest|]; simpl; [|discriminate].
    intros [= <-]. rewrite <- (IH rest eq_refl). destruct keep; reflexivity.
Qed.

Lemma filter_sublist {A} (p : A -> bool) (l : list A) : sublist (List.filter p l) l.
Proof.
  induction l as [|x l IH]; simpl; [constructor|].
  destruct (p x); [apply sublist_skip|apply sublist_cons]; exact IH.
Qed.

Lemma filter_text_param (query : object) (k : string) :
  text_param (get query k) -> filter_text (get query k) = Returns (filter_of query k).
Proof.
  intros [s Hs]. unfold filter_text, filter_of. rewrite Hs. reflexivity.
Qed.

Lemma filter_text_Throws (v : value) : filter_text v = Throws <-> ~ text_param v.
Proof.
  unfold filter_text, text_param. destruct (js_or v (VStr "")) eqn:Hv; split;
    try discriminate; try reflexivity;
    try (intros _ [s Hs]; discriminate Hs).
  intros Hno. exfalso. apply Hno. eexists. reflexivity.
Qed.

Lemma exact_match_Throws (f : string) (v : value) :
  exact_match f v = Throws <-> f <> "" /\ ~ text_field v.
Proof.
  unfold exact_match, text_field. destruct (String.eqb_spec f "") as [->|Hf].
  - split; [discriminate|]. intros [Hne _]. contradiction.
  - destruct (truthy v) eqn:Ht.
    + destruct v; split; try discriminate; try reflexivity;
        try (intros _; split; [exact Hf|]; intros [Hfalse|[s0 Hs]]; discriminate).
      intros [_ Hno]. exfalso. apply Hno. right. eexists. reflexivity.
    + split; [discriminate|]. intros [_ Hno]. exfalso. apply Hno. left. reflexivity.
Qed.

Lemma exact_match_true (f : string) (v : value) :
  exact_match f v = Returns true <-> f = "" \/ field_is f v.
Proof.
  unfold exact_match, field_is. destruct (String.eqb_spec f "") as [->|Hf].
  - split; [intros _; left; reflexivity|reflexivity].
  - destruct (truthy v) eqn:Ht.
    + destruct v as [| | | |s]; split; try discriminate;
        try (intros [?|(s0 & Hs & _)]; [contradiction|discriminate Hs]).
      * intros [= Heq]. apply String.eqb_eq in Heq. right. exists s.
        split; [reflexivity|]. split; [|exact Heq]. intros ->. discriminate Ht.
      * intros [?|(s0 & [= <-] & _ & Heq)]; [contradiction|].
        f_equal. apply String.eqb_eq, Heq.
    + split; [discriminate|]. intros [?|(s & -> & Hs & _)]; [contradiction|].
      simpl in Ht. destruct s; [contradiction|discriminate Ht].
Qed.

(** X19: with every parameter missing, empty or blank, [GET /agro] returns
    all the rows, in the order of the file, whatever the rows hold.  (Lower
    case of the empty text is the empty text.) *)
Theorem listing_without_filters (query : object) (agroData : list object) :
  toLowerCase "" = "" ->
  (forall k, In k ("q" :: exact_fields) ->
     exists s, js_or (get query k) (VStr "") = VStr s /\ trim s = "") ->
  listing query agroData = Returns agroData.
Proof.
  intros Hlow Hblank. unfold listing.
  assert (Hf : forall k, In k ("q" :: exact_fields) ->
                 filter_text (get query k) = Returns "").
  { intros k Hk. destruct (Hblank k Hk) as (s & Hs & Htrim).
    unfold filter_text. rewrite Hs, Htrim, Hlow. reflexivity. }
  rewrite !Hf by (simpl; tauto). simpl.
  induction agroData as [|r rows IH]; simpl; [reflexivity|].
  rewrite IH. reflexivity.
Qed.

(** X20: the request to [GET /agro] fails with a [TypeError] exactly when a
    parameter is neither missing nor a text, or when a filter on farm, gh or
    time is set and some stored row holds in that field a value that is
    neither empty nor a text (a number out of a sheet, say). *)
Theorem listing_throws (query : object) (agroData : list object) :
  listing query agroData = Throws
  <-> (exists k, In k ("q" :: exact_fields) /\ ~ text_param (get query k))
      \/ exists (r : object) (k : string),
           In r agroData /\ In k exact_fields
           /\ filter_of query k <> "" /\ ~ text_field (get r k).
Proof.
  unfold listing, exact_fields.
  destruct (filter_text (get query "q")) as [q|] eqn:Hq; simpl.
  2:{ split; [|reflexivity]. intros _. left. exists "q". split; [simpl; tauto|].
      apply filter_text_Throws, Hq. }
  destruct (filter_text (get query "farm")) as [ff|] eqn:Hff; simpl.
  2:{ split; [|reflexivity]. intros _. left. exists "farm". split; [simpl; tauto|].
      apply filter_text_Throws, Hff. }
  destruct (filter_text (get query "gh")) as [fg|] eqn:Hfg; simpl.
  2:{ split; [|reflexivity]. intros _. left. exists "gh". split; [simpl; tauto|].
      apply filter_text_Throws, Hfg. }
  destruct (filter_text (get query "time")) as [ft|] eqn:Hft; simpl.
  2:{ split; [|reflexivity]. intros _. left. exists "time". split; [simpl; tauto|].
      apply filter_text_Throws, Hft. }
  assert (Hparam : forall k v, filter_text (get query k) = Returns v ->
                     text_param (get query k) /\ v = filter_of query k).
  { intros k v Hk. unfold filter_text in Hk. unfold text_param, filter_of.
    destruct (js_or (get query k) (VStr "")); try discriminate Hk.
    injection Hk as <-. split; [eexists|]; reflexivity. }
  destruct (Hparam _ _ Hq) as [Tq _], (Hparam _ _ Hff) as [Tf ->],
           (Hparam _ _ Hfg) as [Tg ->], (Hparam _ _ Hft) as [Tt ->].
  rewrite filter_throwing_Throws. split.
  - intros (r & Hr & Hthrow). right. unfold list_keeps in Hthrow.
    destruct (exact_match (filter_of query "farm") (get r "farm")) eqn:Ha; simpl in Hthrow.
    2:{ exists r, "farm". apply exact_match_Throws in Ha. simpl. tauto. }
    destruct (exact_match (filter_of query "gh") (get r "gh")) eqn:Hb; simpl in Hthrow.
    2:{ exists r, "gh". apply exact_match_Throws in Hb. simpl. tauto. }
    destruct (exact_match (filter_of query "time") (get r "time")) eqn:Hc; simpl in Hthrow.
    2:{ exists r, "time". apply exact_match_Throws in Hc. simpl. tauto. }
    discriminate Hthrow.
  - intros [(k & Hk & Hno)|(r & k & Hr & Hk & Hf & Hno)].
    + exfalso. simpl in Hk. destruct Hk as [<-|[<-|[<-|[<-|[]]]]]; contradiction.
    + exists r. split; [exact Hr|]. unfold list_keeps.
      assert (Hthrow : exact_match (filter_of query k) (get r k) = Throws).
      { apply exact_match_Throws. split; assumption. }
      simpl in Hk. destruct Hk as [<-|[<-|[<-|[]]]].
      * rewrite Hthrow. reflexivity.
      * rewrite Hthrow. destruct (exact_match _ (get r "farm")); reflexivity.
      * rewrite Hthrow. destruct (exact_match _ (get r "farm")); simpl; [|reflexivity].
        destruct (exact_match _ (get r "gh")); reflexivity.
Qed.

(** X21: when [GET /agro] answers, it answers with rows of the file in the
    order of the file, and a row is among them iff the text [q], when set,
    occurs in one of its values, and for each of farm, gh and time the filter
    is not set or the field is that very text, letter case aside. *)
Theorem listing_contents (query : object) (agroData result : list object) :
  listing query agroData = Returns result ->
  sublist result agroData
  /\ forall r : object,
       In r result
       <-> In r agroData
           /\ text_match (filter_of query "q") r = true
           /\ forall k, In k exact_fields ->
                filter_of query k = "" \/ field_is (filter_of query k) (get r k).
Proof.
  unfold listing, exact_fields.
  destruct (filter_text (get query "q")) as [q|] eqn:Hq; simpl; [|discriminate].
  destruct (filter_text (get query "farm")) as [ff|] eqn:Hff; simpl; [|discriminate].
  destruct (filter_text (get query "gh")) as [fg|] eqn:Hfg; simpl; [|discriminate].
  destruct (filter_text (get query "time")) as [ft|] eqn:Hft; simpl; [|discriminate].
  assert (Hparam : forall k v, filter_text (get query k) = Returns v ->
                     v = filter_of query k).
  { intros k v Hk. unfold filter_text in Hk. unfold filter_of.
    destruct (js_or (get query k) (VStr "")); try discriminate Hk.
    injection Hk as <-. reflexivity. }
  rewrite (Hparam _ _ Hq), (Hparam _ _ Hff), (Hparam _ _ Hfg), (Hparam _ _ Hft).
  intros Hres. apply filter_throwing_Returns in Hres. subst result.
  split; [apply filter_sublist|]. intros r. rewrite filter_In.
  apply and_iff_compat_l. unfold list_keeps.
  pose proof (exact_match_true (filter_of query "farm") (get r "farm")) as Ha.
  pose proof (exact_match_true (filter_of query "gh") (get r "gh")) as Hb.
  pose proof (exact_match_true (filter_of query "time") (get r "time")) as Hc.
  assert (Hall : (forall k, In k ["farm"; "gh"; "time"] ->
                    filter_of query k = "" \/ field_is (filter_of query k) (get r k))
                 <-> (filter_of query "farm" = ""
                      \/ field_is (filter_of query "farm") (get r "farm"))
                     /\ (filter_of query "gh" = ""
                         \/ field_is (filter_of query "gh") (get r "gh"))
                     /\ (filter_of query "time" = ""
                         \/ field_is (filter_of query "time") (get r "time"))).
  { split.
    - intros Hk. repeat split; apply Hk; simpl; tauto.
    - intros (? & ? & ?) k Hk. simpl in Hk.
      destruct Hk as [<-|[<-|[<-|[]]]]; assumption. }
  rewrite Hall, <- Ha, <- Hb, <- Hc.
  destruct (exact_match _ (get r "farm")) as [[]|]; simpl;
    destruct (exact_match _ (get r "gh")) as [[]|]; simpl;
    destruct (exact_match _ (get r "time")) as [[]|]; simpl;
    destruct (text_match (filter_of query "q") r); simpl;
    intuition congruence.
Qed.

End AgroQueries.

Section RemarksTwiceExamples.
#[local] Existing Instance SampleHost.host.

Lemma supervisor_remarks_last_wins_witness :
  get (remark 2 "late") "id" = get (remark 2 "on time") "id"
  /\ Agro.supervisor_remarks (remark 2 "on time")
       (snd (Agro.supervisor_remarks (remark 2 "late") remarked))
     = Agro.supervisor_remarks (remark 2 "on time") remarked.
Proof.
  split; [reflexivity|].
  apply (supervisor_remarks_last_wins (remark 2 "late") (remark 2 "on time") remarked).
  reflexivity.
Defined.

End RemarksTwiceExamples.

Section AgroQueriesExamples.
#[local] Existing Instance SampleHost.host.

Lemma listing_without_filters_witness :
  toLowerCase "" = ""
  /\ AgroQuery.listing (obj [("q", VStr "  "); ("farm", VStr "")]) sheet_rows
     = Returns sheet_rows.
Proof.
  split; [reflexivity|].
  apply (listing_without_filters (obj [("q", VStr "  "); ("farm", VStr "")]) sheet_rows);
    [reflexivity|].
  intros k Hk. simpl in Hk.
  repeat (destruct Hk as [<-|Hk]; [eexists; split; reflexivity|]). destruct Hk.
Defined.

Lemma listing_contents_witness :
  AgroQuery.listing (farm_query " north ") remarked
  = Returns [obj [("id", num 1); ("farm", VStr "North"); ("supervisorRemarks", VStr "seen")]]
  /\ forall r : object,
       In r [obj [("id", num 1); ("farm", VStr "North");
                  ("supervisorRemarks", VStr "seen")]]
       <-> In r remarked
           /\ AgroQuery.text_match (filter_of (farm_query " north ") "q") r = true
           /\ forall k, In k exact_fields ->
                filter_of (farm_query " north ") k = ""
                \/ field_is (filter_of (farm_query " north ") k) (get r k).
Proof.
  split; [reflexivity|].
  apply (listing_contents (farm_query " north ") remarked). reflexivity.
Defined.

End AgroQueriesExamples.

(** ** [GET /agro/search] *)

Section AgroSearch.
Context `{!Host}.
Import AgroQuery.

Lemma narrow_text (p : value) (k : string) (rows : list object) :
  text_param p ->
  narrow p k rows
  = Returns (List.filter (fun r => wanted p (fun f => field_includes f k r)) rows).
Proof.
  intros [s Hs]. unfold narrow, wanted. destruct (truthy p) eqn:Ht.
  - unfold js_or in Hs. rewrite Ht in Hs. subst p. reflexivity.
  - rewrite filter_all; [reflexivity|]. intros r _. destruct p; reflexivity.
Qed.

Lemma narrow_any_text (q : value) (rows : list object) :
  text_param q ->
  narrow_any q rows
  = Returns (List.filter
               (fun r => wanted q (fun s => any_includes (toLowerCase s) r)) rows).
Proof.
  intros [s Hs]. unfold narrow_any, wanted. destruct (truthy q) eqn:Ht.
  - unfold js_or in Hs. rewrite Ht in Hs. subst q. reflexivity.
  - rewrite filter_all; [reflexivity|]. intros r _. destruct q; reflexivity.
Qed.

Lemma filter_filter {A} (p q : A -> bool) (l : list A) :
  List.filter q (List.filter p l) = List.filter (fun x => p x && q x) l.
Proof.
  induction l as [|x l IH]; simpl; [reflexivity|].
  destruct (p x); simpl; [destruct (q x)|]; rewrite IH; reflexivity.
Qed.

Lemma id_descending_key (a b : object) :
  numbered a -> numbered b ->
  is_positive (id_descending a b) = Z.ltb (- id_key b) (- id_key a).
Proof.
  unfold numbered, id_descending, id_key, is_positive.
  destruct (ToNumber (js_or (get a "id") (VNum (Fin 0)))); [discriminate|].
  destruct (ToNumber (js_or (get b "id") (VNum (Fin 0)))); [discriminate|].
  intros _ _. simpl. apply Bool.eq_true_iff_eq. rewrite !Z.ltb_lt. lia.
Qed.

Lemma keyed_opp {A} (key : A -> Z) (w : Z) (l : list A) :
  keyed (fun a => - key a) (- w) l = keyed key w l.
Proof.
  unfold keyed. apply filter_ext. intros a.
  apply Bool.eq_true_iff_eq. rewrite !Z.eqb_eq. lia.
Qed.

(** X22: with parameters as a query string gives them, [GET /agro/search]
    never fails; it answers with the rows in which farm, gh and time contain
    the text asked for and some value contains [q], each test applying only
    when its parameter is set.  When the identifiers of the file are numbers
    the answer is in descending order of identifier, rows with one identifier
    (or none, which counts as 0) staying in the order of the file. *)
Theorem agro_search_newest_first (query : object) (rows : list object) :
  (forall k, In k ("q" :: exact_fields) -> text_param (get query k)) ->
  exists result : list object,
    search query rows = Returns result
    /\ Permutation result (List.filter (found query) rows)
    /\ (List.Forall numbered rows ->
        (forall (i j : nat) (a b : object),
           result !! i = Some a -> result !! j = Some b -> (i < j)%nat ->
           id_key b <= id_key a)
        /\ forall w : Z,
             keyed id_key w result = keyed id_key w (List.filter (found query) rows)).
Proof.
  intros Htext. unfold search.
  rewrite (narrow_text _ "farm") by (apply Htext; simpl; tauto). cbn [bind].
  rewrite (narrow_text _ "gh") by (apply Htext; simpl; tauto). cbn [bind].
  rewrite (narrow_text _ "time") by (apply Htext; simpl; tauto). cbn [bind].
  rewrite narrow_any_text by (apply Htext; simpl; tauto). cbn [bind].
  rewrite !filter_filter.
  rewrite (filter_ext _ (found query))
    by (intros r; unfold found; rewrite !andb_assoc; reflexivity).
  eexists. split; [reflexivity|]. split; [apply arr_sort_perm|].
  intros Hnum.
  assert (Hkept : List.Forall numbered (List.filter (found query) rows)).
  { rewrite List.Forall_forall in Hnum |- *. intros r Hr.
    apply filter_In in Hr as [Hr _]. apply Hnum, Hr. }
  split.
  - intros i j a b Hi Hj Hlt.
    pose proof (arr_sort_key (fun r => - id_key r) id_descending numbered
                  id_descending_key _ Hkept) as Hs.
    pose proof (StronglySorted_lookup _ _ Hs i j a b Hi Hj Hlt) as Hle.
    simpl in Hle. lia.
  - intros w. rewrite <- !(keyed_opp id_key w).
    apply (arr_sort_keyed (fun r => - id_key r) id_descending numbered
             id_descending_key). exact Hkept.
Qed.

Lemma prefix_refl (s : string) : String.prefix s s = true.
Proof.
  induction s as [|c s IH]; simpl; [reflexivity|].
  destruct (Ascii.ascii_dec c c); [exact IH|contradiction].
Qed.

Lemma str_includes_refl (s : string) : str_includes s s = true.
Proof.
  destruct s as [|c s]; [reflexivity|]. cbn [str_includes].
  rewrite prefix_refl. reflexivity.
Qed.

Lemma str_includes_empty (s : string) : str_includes s "" = true.
Proof. destruct s; reflexivity. Qed.

(** X23: what [GET /agro] finds, [GET /agro/search] finds too, for filters
    on farm, gh and time written without surrounding white space and no
    text [q]: a field that is the filter, letter case aside, contains it. *)
Theorem listing_within_search (query : object) (rows listed : list object) :
  truthy (get query "q") = false ->
  (forall k, In k exact_fields ->
     exists s, js_or (get query k) (VStr "") = VStr s /\ trim s = s) ->
  listing query rows = Returns listed ->
  exists result : list object,
    search query rows = Returns result
    /\ forall r : object, In r listed -> In r result.
Proof.
  intros Hq Htrim Hlist. unfold exact_fields in Htrim.
  assert (Htext : forall k, In k exact_fields -> text_param (get query k)).
  { intros k Hk. destruct (Htrim k Hk) as (s & Hs & _). exists s. exact Hs. }
  unfold search.
  rewrite (narrow_text _ "farm") by (apply Htext; simpl; tauto). cbn [bind].
  rewrite (narrow_text _ "gh") by (apply Htext; simpl; tauto). cbn [bind].
  rewrite (narrow_text _ "time") by (apply Htext; simpl; tauto). cbn [bind].
  unfold narrow_any. rewrite Hq. cbn [bind].
  eexists. split; [reflexivity|]. intros r Hr. apply In_arr_sort.
  unfold listing in Hlist.
  destruct (filter_text (get query "q")) as [q|]; simpl in Hlist; [|discriminate].
  assert (Hf : forall k, In k exact_fields ->
                 filter_text (get query k) = Returns (filter_of query k)).
  { intros k Hk. apply filter_text_param, Htext, Hk. }
  rewrite !Hf in Hlist by (simpl; tauto). simpl in Hlist.
  apply filter_throwing_Returns in Hlist. subst listed.
  apply filter_In in Hr as [Hr Hkeep]. rewrite !filter_filter.
  apply filter_In. split; [exact Hr|]. rewrite !andb_true_iff.
  assert (Hone : forall k, In k exact_fields ->
                   exact_match (filter_of query k) (get r k) = Returns true ->
                   wanted (get query k) (fun f => field_includes f k r) = true).
  { intros k Hk Hm. destruct (Htrim k Hk) as (s & Hs & Hts).
    unfold wanted. destruct (get query k) as [| | | |p] eqn:Hp; try reflexivity.
    destruct (truthy (VStr p)) eqn:Ht; [|reflexivity].
    unfold js_or in Hs. rewrite Ht in Hs. injection Hs as ->.
    apply exact_match_true in Hm. unfold filter_of in Hm. rewrite Hp in Hm.
    unfold js_or in Hm. rewrite Ht in Hm. simpl ToString in Hm. rewrite Hts in Hm.
    unfold field_includes. destruct Hm as [Hm|(t & Ht' & Hne & Hm)].
    - rewrite Hm. apply str_includes_empty.
    - rewrite Ht'. unfold js_or.
      assert (Htt : truthy (VStr t) = true) by (destruct t; [contradiction|reflexivity]).
      rewrite Htt. simpl ToString. rewrite Hm. apply str_includes_refl. }
  unfold list_keeps in Hkeep.
  destruct (exact_match _ (get r "farm")) as [[]|] eqn:Ha; simpl in Hkeep;
    try (rewrite ?andb_false_r in Hkeep; discriminate Hkeep);
    destruct (exact_match _ (get r "gh")) as [[]|] eqn:Hb; simpl in Hkeep;
    try (rewrite ?andb_false_r in Hkeep; discriminate Hkeep);
    destruct (exact_match _ (get r "time")) as [[]|] eqn:Hc; simpl in Hkeep;
    try (rewrite ?andb_false_r in Hkeep; discriminate Hkeep).
  repeat split; apply Hone; simpl; tauto || assumption.
Qed.

End AgroSearch.

(** ** A report filed, then searched for *)

Section AppendThenSearch.
Context `{!Host}.
Import FarmReport.

Lemma differs_stored (v : value) :
  differs v (VStr (ToString (js_or v (VStr "")))) = false.
Proof.
  unfold differs. destruct (truthy v) eqn:Ht; [|reflexivity]. simpl.
  unfold js_or at 2. rewrite Ht.
  assert (Hs : ToString (js_or (VStr (ToString v)) (VStr "")) = ToString v).
  { unfold js_or. destruct (truthy (VStr (ToString v))) eqn:Hs; [reflexivity|].
    simpl in Hs. destruct (ToString v); [reflexivity|discriminate Hs]. }
  rewrite Hs, String.eqb_refl. reflexivity.
Qed.

(** X24: a report that [POST /farmreport] has accepted is found at once by
    [GET /farmreport/search], whatever else the file holds, by any choice of
    the text fields it was submitted with: each of year, farm, greenhouse,
    bed, crop, variety, pest and disease either left out of the search or
    given as in the submission, with no bounds on weeks or rates. *)
Theorem filed_report_is_found (body query : object) (now : string)
    (rows : list object) :
  status (fst (append body now rows)) = 200%nat ->
  (forall k, In k exact_keys -> blank (get query k) \/ get query k = get body k) ->
  (forall k, In k bound_keys -> blank (get query k)) ->
  exists r : object,
    snd (append body now rows) = rows ++ [r]
    /\ In r (filterFarmRows query (snd (append body now rows))).
Proof.
  intros Hok Hexact Hbounds. unfold append in *.
  destruct (negb (truthy (get body "weekRange")) || negb (truthy (get body "farm"))
            || negb (truthy (get body "greenhouse"))); [discriminate Hok|].
  cbn [snd]. eexists. split; [reflexivity|].
  unfold filterFarmRows. apply In_arr_sort, filter_In.
  split; [apply in_or_app; right; left; reflexivity|].
  unfold keeps, bounds_of.
  rewrite !optional_blank by (apply Hbounds; simpl; tauto).
  assert (Hd : forall k, In k exact_keys ->
                 assoc k [("id", VNum (num_add (max_id rows) (Fin 1)));
                          ("year", VStr (ToString (js_or (get body "year") (VStr ""))));
                          ("weekRange", VStr (trim (ToString (get body "weekRange"))));
                          ("farm", VStr (ToString (js_or (get body "farm") (VStr ""))));
                          ("greenhouse",
                           VStr (ToString (js_or (get body "greenhouse") (VStr ""))));
                          ("bed", VStr (ToString (js_or (get body "bed") (VStr ""))));
                          ("crop", VStr (ToString (js_or (get body "crop") (VStr ""))));
                          ("variety",
                           VStr (ToString (js_or (get body "variety") (VStr ""))));
                          ("pest", VStr (ToString (js_or (get body "pest") (VStr ""))));
                          ("disease",
                           VStr (ToString (js_or (get body "disease") (VStr ""))));
                          ("pestRate", VNum (or0 (ToNumber (get body "pestRate"))));
                          ("diseaseRate",
                           VNum (or0 (ToNumber (get body "diseaseRate"))));
                          ("createdAt", VStr now)] VUndef
                 = VStr (ToString (js_or (get body k) (VStr "")))).
  { intros k Hk. simpl in Hk.
    destruct Hk as [<-|[<-|[<-|[<-|[<-|[<-|[<-|[<-|[]]]]]]]]]; reflexivity. }
  assert (Hno : forall k, In k exact_keys ->
                  differs (get query k)
                    (VStr (ToString (js_or (get body k) (VStr "")))) = false).
  { intros k Hk. destruct (Hexact k Hk) as [Hb| ->].
    - apply differs_blank, Hb.
    - apply differs_stored. }
  rewrite !get_obj. rewrite !Hd by (simpl; tauto).
  rewrite !Hno by (simpl; tauto). reflexivity.
Qed.

End AppendThenSearch.

Section AgroSearchExamples.
#[local] Existing Instance SampleHost.host.

Lemma agro_search_newest_first_witness :
  (forall k, In k ("q" :: exact_fields) -> text_param (get (farm_query "nor") k))
  /\ AgroQuery.search (farm_query "nor") sheet_rows
     = Returns [obj [("id", num 3); ("farm", VStr "Northfield"); ("gh", VStr "GH2")];
                obj [("id", num 1); ("farm", VStr "North"); ("gh", VStr "GH1")]]
  /\ exists result : list object,
       AgroQuery.search (farm_query "nor") sheet_rows = Returns result
       /\ Permutation result (List.filter (found (farm_query "nor")) sheet_rows).
Proof.
  assert (Ht : forall k, In k ("q" :: exact_fields) ->
                 text_param (get (farm_query "nor") k)).
  { intros k Hk. simpl in Hk.
    repeat (destruct Hk as [<-|Hk]; [eexists; reflexivity|]). destruct Hk. }
  split; [exact Ht|]. split; [reflexivity|].
  destruct (agro_search_newest_first (farm_query "nor") sheet_rows Ht)
    as (result & Hres & Hperm & _).
  exists result. split; assumption.
Defined.

Lemma listing_within_search_witness :
  truthy (get (farm_query "north") "q") = false
  /\ AgroQuery.listing (farm_query "north") remarked
     = Returns [obj [("id", num 1); ("farm", VStr "North");
                     ("supervisorRemarks", VStr "seen")]]
  /\ exists result : list object,
       AgroQuery.search (farm_query "north") remarked = Returns result
       /\ forall r : object,
            In r [obj [("id", num 1); ("farm", VStr "North");
                       ("supervisorRemarks", VStr "seen")]] ->
            In r result.
Proof.
  split; [reflexivity|]. split; [reflexivity|].
  apply (listing_within_search (farm_query "north") remarked); [reflexivity| |reflexivity].
  intros k Hk. simpl in Hk.
  repeat (destruct Hk as [<-|Hk]; [eexists; split; reflexivity|]). destruct Hk.
Defined.

End AgroSearchExamples.

Section AppendThenSearchExamples.
#[local] Existing Instance SampleHost.host.

Lemma filed_report_is_found_witness :
  status (fst (FarmReport.append complete "2024-03-02T08:00:00.000Z" inspections))
  = 200%nat
  /\ exists r : object,
       snd (FarmReport.append complete "2024-03-02T08:00:00.000Z" inspections)
       = inspections ++ [r]
       /\ In r (FarmReport.filterFarmRows own_query
                  (snd (FarmReport.append complete "2024-03-02T08:00:00.000Z"
                          inspections))).
Proof.
  split; [reflexivity|].
  apply (filed_report_is_found complete own_query "2024-03-02T08:00:00.000Z" inspections).
  - reflexivity.
  - intros k Hk. simpl in Hk.
    repeat (destruct Hk as [<-|Hk];
            [first [right; reflexivity|left; left; reflexivity|left; right; reflexivity]|]).
    destruct Hk.
  - intros k Hk. simpl in Hk.
    repeat (destruct Hk as [<-|Hk]; [first [left; reflexivity|right; reflexivity]|]).
    destruct Hk.
Defined.

End AppendThenSearchExamples.
